(** * markdown-it-katex-gpt: delimiter scanning of the block and inline math rules

    A shallow embedding of [src/index.js].  JavaScript strings are sequences
    of UTF-16 code units; the host parser state ([StateBlock], [StateInline]),
    the diagnostic console and the KaTeX engine are threaded explicitly. *)

From Equations Require Import Equations.
From stdpp Require Import gmap strings list.
From Stdlib Require Import ZArith NArith Lia.

Local Open Scope Z_scope.

(** ** JavaScript string primitives used by the plugin *)

Module JS.

(** A string value: its UTF-16 code units. *)
Definition str : Type := list N.

Definition of_string (s : string) : str :=
  List.map Ascii.N_of_ascii (String.list_ascii_of_string s).

(** ['\n'] *)
Definition LF : N := 10%N.

(** [s.length] *)
Definition len (s : str) : Z := Z.of_nat (length s).

(** [s.startsWith(pat)] *)
Fixpoint startsWith (s pat : str) : bool :=
  match pat with
  | [] => true
  | p :: pat' =>
      match s with
      | [] => false
      | c :: s' => N.eqb c p && startsWith s' pat'
      end
  end.

(** Clamping of a relative index, as [slice] does for both its arguments. *)
Definition relIndex (size i : Z) : Z :=
  if i <? 0 then Z.max (size + i) 0 else Z.min i size.

(** [s.slice(start, end)]; [None] for [end] is [undefined] (or an omitted
    argument), which stands for the length of [s]. *)
Definition slice (s : str) (start : Z) (end_ : option Z) : str :=
  let size := len s in
  let from := relIndex size start in
  let to := match end_ with
            | None => size
            | Some e => relIndex size e
            end in
  take (Z.to_nat (to - from)) (drop (Z.to_nat from) s).

(** A number read from an array and added up is [None] when it is [NaN]
    (an index out of range gives [undefined], and [undefined + n] is
    [NaN]). *)
Definition add (a b : option Z) : option Z :=
  match a, b with
  | Some x, Some y => Some (x + y)
  | _, _ => None
  end.

(** [ToIntegerOrInfinity] on such a number: [NaN] becomes [0]. *)
Definition toInteger (a : option Z) : Z := default 0 a.

(** [s[i]]: [None] is [undefined]. *)
Definition at_ (s : str) (i : Z) : option N :=
  if i <? 0 then None else s !! Z.to_nat i.

(** [s[i] === '\n'] *)
Definition isLF (c : option N) : bool :=
  match c with
  | Some c => N.eqb c LF
  | None => false
  end.

(** [s.indexOf(pat)], searching from offset [i] of the original string. *)
Fixpoint indexOfFrom (s pat : str) (i : Z) : Z :=
  if startsWith s pat then i
  else match s with
       | [] => -1
       | _ :: s' => indexOfFrom s' pat (i + 1)
       end.

Definition indexOf (s pat : str) : Z := indexOfFrom s pat 0.

(** White space and line terminators, the code units [trim] strips. *)
Definition isWhiteSpace (c : N) : bool :=
  ((9 <=? c) && (c <=? 13) || (c =? 32) || (c =? 160) || (c =? 5760)
   || (8192 <=? c) && (c <=? 8202) || (c =? 8232) || (c =? 8233)
   || (c =? 8239) || (c =? 8287) || (c =? 12288) || (c =? 65279))%N.

Fixpoint trimStart (s : str) : str :=
  match s with
  | c :: s' => if isWhiteSpace c then trimStart s' else s
  | [] => []
  end.

Definition trimEnd (s : str) : str := rev (trimStart (rev s)).

(** [s.trim()] *)
Definition trim (s : str) : str := trimEnd (trimStart s).

(** Truthiness of a string: non-empty. *)
Definition truthy (s : str) : bool :=
  match s with
  | [] => false
  | _ :: _ => true
  end.

End JS.

(** ** Data model *)

(** A delimiter pair of the configuration, [{ left, right, display }]. *)
Module Delimiter.
Record t : Type := mk { left : JS.str; right : JS.str; display : bool }.
End Delimiter.

(** The plugin options, [{ delimiters }]. *)
Module Options.
Record t : Type := mk { delimiters : list Delimiter.t }.
End Options.

Definition displayPair : Delimiter.t :=
  Delimiter.mk (JS.of_string "\[") (JS.of_string "\]") true.

Definition inlinePair : Delimiter.t :=
  Delimiter.mk (JS.of_string "\(") (JS.of_string "\)") false.

Definition defaultOptions : Options.t := Options.mk [displayPair; inlinePair].

(** The fields of a host token that the plugin sets or reads. *)
Module Token.
Record t : Type := mk {
  type : string;
  tag : string;
  nesting : Z;
  content : JS.str;
  map : option (nat * nat);
  block : bool }.
End Token.

(** The host's block state: the document buffer, the line table, the
    current line and the token stream. *)
Module StateBlock.
Record t : Type := mk {
  src : JS.str;
  bMarks : list Z;
  tShift : list Z;
  eMarks : list Z;
  line : nat;
  tokens : list Token.t }.

(** [state.push(...)] followed by the assignments to the fields of the
    token it returns: the token stream is append-only. *)
Definition push (st : t) (tok : Token.t) : t :=
  mk (src st) (bMarks st) (tShift st) (eMarks st) (line st) (tokens st ++ [tok]).

(** [state.line = n] *)
Definition set_line (st : t) (n : nat) : t :=
  mk (src st) (bMarks st) (tShift st) (eMarks st) n (tokens st).
End StateBlock.

(** The host's inline state: the buffer, the cursor, its bound, the text
    collected by the host's text rule and not yet turned into a token, and
    the token stream. *)
Module StateInline.
Record t : Type := mk {
  src : JS.str;
  pos : Z;
  posMax : Z;
  pending : JS.str;
  tokens : list Token.t }.

(** The host's [pushPending]: the pending text becomes a [text] token and
    [pending] is emptied. *)
Definition pushPending (st : t) : t :=
  mk (src st) (pos st) (posMax st) []
    (tokens st ++ [Token.mk "text" "" 0 (pending st) None false]).

(** [state.push(...)] followed by the assignment to [token.content]: the
    host first flushes the pending text, if there is any, then appends
    the new token. *)
Definition push (st : t) (tok : Token.t) : t :=
  let st := if JS.truthy (pending st) then pushPending st else st in
  mk (src st) (pos st) (posMax st) (pending st) (tokens st ++ [tok]).

(** [state.pos = p] *)
Definition set_pos (st : t) (p : Z) : t :=
  mk (src st) p (posMax st) (pending st) (tokens st).
End StateInline.

(** The options object passed to [katex.renderToString]. *)
Module Katex.
Record options : Type := mk {
  throwOnError : bool;
  output : string;
  displayMode : bool }.
End Katex.

(** What a rule leaves behind: its return value, the parser state and the
    lines written by [console.error]. *)
Module Run.
Record t (Err S : Type) : Type := mk {
  returned : bool;
  state : S;
  console : list (string * Err) }.
Arguments mk {Err S} _ _ _.
Arguments returned {Err S} _.
Arguments state {Err S} _.
Arguments console {Err S} _.
End Run.

(** ** The rules *)

(** [state.src.slice(bMarks[ln] + tShift[ln], eMarks[ln])], the text of
    line [ln] with its indentation stripped. *)
Definition lineText (st : StateBlock.t) (ln : nat) : JS.str :=
  let startPos := JS.add (StateBlock.bMarks st !! ln) (StateBlock.tShift st !! ln) in
  let maxPos := StateBlock.eMarks st !! ln in
  JS.slice (StateBlock.src st) (JS.toInteger startPos) maxPos.

(** The [for] loop of [mathBlockRule]: the first display delimiter whose
    [left] starts the line, [None] for [null]. *)
Definition matchedDelimiter (displayDelimiters : list Delimiter.t) (lineText : JS.str)
  : option Delimiter.t :=
  List.find (fun delim => JS.startsWith lineText (Delimiter.left delim)) displayDelimiters.

(** The [while (nextLine < endLine)] loop of [mathBlockRule] for the
    delimiter [delim].  [None] is the [return false] inside the loop;
    otherwise the values of [content], [nextLine] and [found] at loop exit. *)
Equations? scanLines (st : StateBlock.t) (delim : Delimiter.t) (endLine : nat)
    (content : JS.str) (nextLine : nat) : option (JS.str * nat * bool)
    by wf (endLine - nextLine)%nat lt :=
  scanLines st delim endLine content nextLine with decide (nextLine < endLine)%nat := {
    | right _ := Some (content, nextLine, false);
    | left _ :=
        let currentLine := lineText st nextLine in
        let rightPos := JS.indexOf currentLine (Delimiter.right delim) in
        if negb (rightPos =? -1) then
          let content := content ++ JS.slice currentLine 0 (Some rightPos) in
          let afterRight :=
            JS.trim (JS.slice currentLine (rightPos + JS.len (Delimiter.right delim)) None) in
          if JS.truthy afterRight then None
          else Some (content, S nextLine, true)
        else
          scanLines st delim endLine (content ++ currentLine ++ [JS.LF]) (S nextLine) }.
Proof. lia. Qed.

(** Lines 36 to 86: the search for the closing delimiter, on the opening
    line first and on the following lines otherwise. *)
Definition searchRight (st : StateBlock.t) (delim : Delimiter.t) (lineText : JS.str)
    (startLine endLine : nat) : option (JS.str * nat * bool) :=
  let firstLineContent := JS.slice lineText (JS.len (Delimiter.left delim)) None in
  let rightPosInFirstLine := JS.indexOf firstLineContent (Delimiter.right delim) in
  if negb (rightPosInFirstLine =? -1) then
    let content := JS.slice firstLineContent 0 (Some rightPosInFirstLine) in
    let afterRight :=
      JS.trim (JS.slice firstLineContent
                 (rightPosInFirstLine + JS.len (Delimiter.right delim)) None) in
    if JS.truthy afterRight then None
    else Some (content, S startLine, true)
  else
    scanLines st delim endLine (firstLineContent ++ [JS.LF]) (S startLine).

(** The walk of [mathInlineRule] from [pos] up to [max_]: it stops on a
    newline or where [right] starts, and returns the position reached. *)
Equations? walk (src : JS.str) (delim : Delimiter.t) (max_ pos : Z) : Z
    by wf (Z.to_nat (max_ - pos)) lt :=
  walk src delim max_ pos with decide (pos < max_) := {
    | right _ := pos;
    | left _ :=
        if JS.isLF (JS.at_ src pos) then pos
        else if JS.startsWith (JS.slice src pos None) (Delimiter.right delim) then pos
        else walk src delim max_ (pos + 1) }.
Proof. lia. Qed.

Section Rules.

(** The rendering engine: [katex.renderToString] either returns markup or
    throws a value of type [Err]. *)
Context {Err : Type}.
Variable renderToString : JS.str -> Katex.options -> Err + JS.str.

Definition mathBlockRule (options : Options.t) (st : StateBlock.t)
    (console : list (string * Err)) (startLine endLine : nat) (silent : bool)
  : Run.t Err StateBlock.t :=
  let displayDelimiters := List.filter Delimiter.display (Options.delimiters options) in
  let lineText := lineText st startLine in
  match matchedDelimiter displayDelimiters lineText with
  | None => Run.mk false st console
  | Some delim =>
      match searchRight st delim lineText startLine endLine with
      | None => Run.mk false st console
      | Some (content, nextLine, found) =>
          if negb found then Run.mk false st console
          else if silent then Run.mk true st console
          else
            match renderToString (JS.trim content) (Katex.mk false "mathml" true) with
            | inr renderedContent =>
                let token :=
                  Token.mk "math_block" "math" 0 renderedContent
                    (Some (startLine, nextLine)) true in
                Run.mk true (StateBlock.set_line (StateBlock.push st token) nextLine) console
            | inl e =>
                Run.mk false st (console ++ [("KaTeX block rendering error:"%string, e)])
            end
      end
  end.

(** The body of the [for] loop of [mathInlineRule], one delimiter after
    the other; [continue] is the recursive call on the remaining ones. *)
Fixpoint inlineLoop (delimiters : list Delimiter.t) (st : StateInline.t)
    (console : list (string * Err)) (silent : bool) : Run.t Err StateInline.t :=
  match delimiters with
  | [] => Run.mk false st console
  | delim :: rest =>
      let max_ := StateInline.posMax st in
      let start := StateInline.pos st in
      let src := StateInline.src st in
      if negb (JS.startsWith (JS.slice src start None) (Delimiter.left delim)) then
        inlineLoop rest st console silent
      else
        let pos := walk src delim max_ (start + JS.len (Delimiter.left delim)) in
        if (max_ <=? pos) || JS.isLF (JS.at_ src pos) then
          inlineLoop rest st console silent
        else if negb (JS.startsWith (JS.slice src pos None) (Delimiter.right delim)) then
          inlineLoop rest st console silent
        else
          let '(st1, console1) :=
            if negb silent then
              let content := JS.slice src (start + JS.len (Delimiter.left delim)) (Some pos) in
              match renderToString content
                      (Katex.mk false "mathml" (Delimiter.display delim)) with
              | inr renderedContent =>
                  let token := Token.mk "html_inline" "" 0 renderedContent None false in
                  (StateInline.push st token, console)
              | inl e =>
                  (st, console ++ [("KaTeX inline rendering error:"%string, e)])
              end
            else (st, console) in
          Run.mk true
            (StateInline.set_pos st1 (pos + JS.len (Delimiter.right delim))) console1
  end.

Definition mathInlineRule (options : Options.t) (st : StateInline.t)
    (console : list (string * Err)) (silent : bool) : Run.t Err StateInline.t :=
  inlineLoop (Options.delimiters options) st console silent.

End Rules.

(** [mathBlockRenderer]: [tokens[idx].content]; [None] is the [TypeError]
    of reading a field of [undefined]. *)
Definition mathBlockRenderer (tokens : list Token.t) (idx : nat) : option JS.str :=
  Token.content <$> tokens !! idx.

(** ** Registration (the default export) *)

(** The host's rule chains, as far as the plugin uses them: an ordered
    list of named rules with [before] and [after], which throw ([None])
    when the anchor rule is missing. *)
Module Ruler.
Definition t (R : Type) : Type := list (string * R).

Fixpoint find_ {R} (name : string) (rules : t R) : option nat :=
  match rules with
  | [] => None
  | (n, _) :: rest => if String.eqb n name then Some O else S <$> find_ name rest
  end.

Definition splice {R} (index : nat) (rule : string * R) (rules : t R) : t R :=
  take index rules ++ rule :: drop index rules.

Definition before {R} (beforeName ruleName : string) (fn : R) (rules : t R) : option (t R) :=
  index ← find_ beforeName rules; Some (splice index (ruleName, fn) rules).

Definition after {R} (afterName ruleName : string) (fn : R) (rules : t R) : option (t R) :=
  index ← find_ afterName rules; Some (splice (S index) (ruleName, fn) rules).
End Ruler.

Module MarkdownIt.
Definition blockRule (Err : Type) : Type :=
  StateBlock.t -> list (string * Err) -> nat -> nat -> bool -> Run.t Err StateBlock.t.
Definition inlineRule (Err : Type) : Type :=
  StateInline.t -> list (string * Err) -> bool -> Run.t Err StateInline.t.
Definition rendererRule : Type := list Token.t -> nat -> option JS.str.

Record t (Err : Type) : Type := mk {
  block_ruler : Ruler.t (blockRule Err);
  inline_ruler : Ruler.t (inlineRule Err);
  renderer_rules : gmap string rendererRule }.
Arguments mk {Err} _ _ _.
Arguments block_ruler {Err} _.
Arguments inline_ruler {Err} _.
Arguments renderer_rules {Err} _.
End MarkdownIt.

(** The default export: [None] for [options] is the omitted argument. *)
Definition plugin {Err : Type} (renderToString : JS.str -> Katex.options -> Err + JS.str)
    (md : MarkdownIt.t Err) (options : option Options.t) : option (MarkdownIt.t Err) :=
  let options := default defaultOptions options in
  block ← Ruler.before "fence" "math_block" (mathBlockRule renderToString options)
            (MarkdownIt.block_ruler md);
  inline ← Ruler.after "text" "math_inline" (mathInlineRule renderToString options)
            (MarkdownIt.inline_ruler md);
  Some (MarkdownIt.mk block inline
          (<["math_block" := mathBlockRenderer]> (MarkdownIt.renderer_rules md))).

(** ** Sample engines and documents *)

(** An engine that wraps its input in a [<math>] element, and one that
    always throws. *)
Definition echoEngine (source : JS.str) (_ : Katex.options) : string + JS.str :=
  inr (JS.of_string "<math>" ++ source ++ JS.of_string "</math>").

Definition faultyEngine (_ : JS.str) (_ : Katex.options) : string + JS.str :=
  inl "ParseError"%string.

(** The three-line document [\[], [ x+y ], [\]]. *)
Definition threeLineDoc : StateBlock.t :=
  StateBlock.mk
    (JS.of_string "\[" ++ [JS.LF] ++ JS.of_string " x+y " ++ [JS.LF] ++ JS.of_string "\]")
    [0; 3; 9; 11] [0; 1; 0; 0] [2; 8; 11; 11] 0%nat [].

(** The one-line documents [\[x\] trailing text] and [\[x+y]. *)
Definition trailingDoc : StateBlock.t :=
  StateBlock.mk (JS.of_string "\[x\] trailing text") [0; 19] [0; 0] [19; 19] 0%nat [].

Definition unclosedDoc : StateBlock.t :=
  StateBlock.mk (JS.of_string "\[x+y") [0; 5] [0; 0] [5; 5] 0%nat [].

(** The inline text [\(x\)] with the cursor at its start. *)
Definition inlineDoc (posMax : Z) : StateInline.t :=
  StateInline.mk (JS.of_string "\(x\)") 0 posMax [] [].

(** Further pairs: a display pair that opens with [$$], a pair without
    the display flag that opens like [displayPair], a display pair that
    opens like it but closes with [\)], and an inline pair that opens
    like [inlinePair] but closes with [$]. *)
Definition dollarPair : Delimiter.t :=
  Delimiter.mk (JS.of_string "$$") (JS.of_string "$$") true.

Definition plainBracketPair : Delimiter.t :=
  Delimiter.mk (JS.of_string "\[") (JS.of_string "\]") false.

Definition mixedPair : Delimiter.t :=
  Delimiter.mk (JS.of_string "\[") (JS.of_string "\)") true.

Definition parenDollarPair : Delimiter.t :=
  Delimiter.mk (JS.of_string "\(") (JS.of_string "$") false.

(** A host with the two anchor rules the plugin registers next to. *)
Definition hostMd : MarkdownIt.t string :=
  MarkdownIt.mk
    [("fence"%string, fun st console _ _ _ => Run.mk false st console)]
    [("text"%string, fun st console _ => Run.mk false st console)]
    ∅.

(** The same host once the plugin is registered with the default options
    and [echoEngine]. *)
Definition registeredMd : MarkdownIt.t string :=
  MarkdownIt.mk
    [("math_block"%string, mathBlockRule echoEngine defaultOptions);
     ("fence"%string, fun st console _ _ _ => Run.mk false st console)]
    [("text"%string, fun st console _ => Run.mk false st console);
     ("math_inline"%string, mathInlineRule echoEngine defaultOptions)]
    (<["math_block"%string := mathBlockRenderer]> ∅).

Definition mathToken : Token.t :=
  Token.mk "math_block" "math" 0 (JS.of_string "<math>x</math>") (Some (0%nat, 1%nat)) true.

(** The one-line document [\[ a+b \]] followed by two spaces. *)
Definition singleLineDoc : StateBlock.t :=
  StateBlock.mk (JS.of_string "\[ a+b \]  ") [0; 11] [0; 0] [11; 11] 0%nat [].

(** The inline text [a \(x^2\) b] with the cursor on the backslash and
    the text before it pending. *)
Definition proseDoc : StateInline.t :=
  StateInline.mk
    (JS.of_string "a " ++ Delimiter.left inlinePair ++ JS.of_string "x^2"
     ++ Delimiter.right inlinePair ++ JS.of_string " b")
    2 11 (JS.of_string "a ") [].

(** An engine that throws on any input with a newline, and one that
    throws on any input with white space at either end. *)
Definition lineShyEngine (source : JS.str) (opts : Katex.options) : string + JS.str :=
  if bool_decide (JS.LF ∈ source) then inl "newline"%string else echoEngine source opts.

Definition strictEngine (source : JS.str) (opts : Katex.options) : string + JS.str :=
  if bool_decide (JS.trim source = source) then echoEngine source opts
  else inl "untrimmed"%string.

(** ** Specification vocabulary *)

(** The text in which the block rule looks for [right] on line [j]: the
    opening line without its [left], any later line as a whole. *)
Definition searchedText (st : StateBlock.t) (delim : Delimiter.t) (startLine j : nat)
  : JS.str :=
  if decide (j = startLine)
  then JS.slice (lineText st startLine) (JS.len (Delimiter.left delim)) None
  else lineText st j.

(** Line [k] is the first line from [startLine] on (and before [endLine]
    when it is a later line) that contains [right], at offset [rp]. *)
Definition closesOn (st : StateBlock.t) (delim : Delimiter.t) (startLine endLine k : nat)
    (rp : Z) : Prop :=
  (startLine <= k)%nat /\
  (k = startLine \/ (k < endLine)%nat) /\
  (forall j, (startLine <= j < k)%nat ->
     JS.indexOf (searchedText st delim startLine j) (Delimiter.right delim) = -1) /\
  JS.indexOf (searchedText st delim startLine k) (Delimiter.right delim) = rp /\
  rp <> -1.

(** What follows [right] on the closing line, trimmed. *)
Definition trailingText (st : StateBlock.t) (delim : Delimiter.t) (startLine k : nat)
    (rp : Z) : JS.str :=
  JS.trim (JS.slice (searchedText st delim startLine k)
             (rp + JS.len (Delimiter.right delim)) None).

(** The lines strictly between [startLine] and [k], each followed by a
    newline. *)
Definition intermediateLines (st : StateBlock.t) (startLine k : nat) : JS.str :=
  List.flat_map (fun j => lineText st j ++ [JS.LF]) (seq (S startLine) (k - S startLine)).

(** The raw content between [left] on [startLine] and [right] on [k]. *)
Definition capturedContent (st : StateBlock.t) (delim : Delimiter.t) (startLine k : nat)
    (rp : Z) : JS.str :=
  if decide (k = startLine)
  then JS.slice (searchedText st delim startLine startLine) 0 (Some rp)
  else searchedText st delim startLine startLine ++ [JS.LF]
       ++ intermediateLines st startLine k
       ++ JS.slice (lineText st k) 0 (Some rp).

(** The token the host makes of the pending text when a token is pushed:
    none when there is no pending text. *)
Definition pendingText (st : StateInline.t) : list Token.t :=
  if JS.truthy (StateInline.pending st)
  then [Token.mk "text" "" 0 (StateInline.pending st) None false]
  else [].

(** The pair [delim] opens at the cursor and its [right] is first met at
    offset [p], before the bound [posMax] and with no newline on the way. *)
Definition closesAt (st : StateInline.t) (delim : Delimiter.t) (p : Z) : Prop :=
  let src := StateInline.src st in
  let from := StateInline.pos st + JS.len (Delimiter.left delim) in
  JS.startsWith (JS.slice src (StateInline.pos st) None) (Delimiter.left delim) = true /\
  from <= p < StateInline.posMax st /\
  (forall q, from <= q <= p -> JS.at_ src q <> Some JS.LF) /\
  (forall q, from <= q < p ->
     JS.startsWith (JS.slice src q None) (Delimiter.right delim) = false) /\
  JS.startsWith (JS.slice src p None) (Delimiter.right delim) = true.

(** The walk after [left] hits a newline or the bound before it finds
    [right]: no offset reachable without crossing a newline starts [right]. *)
Definition walkBlocked (st : StateInline.t) (delim : Delimiter.t) : Prop :=
  let src := StateInline.src st in
  let from := StateInline.pos st + JS.len (Delimiter.left delim) in
  forall p, from <= p < StateInline.posMax st ->
    (forall q, from <= q <= p -> JS.at_ src q <> Some JS.LF) ->
    JS.startsWith (JS.slice src p None) (Delimiter.right delim) = false.

(** The pair does not match at the cursor: its [left] does not start
    there, or the walk is blocked. *)
Definition pairFails (st : StateInline.t) (delim : Delimiter.t) : Prop :=
  JS.startsWith (JS.slice (StateInline.src st) (StateInline.pos st) None)
    (Delimiter.left delim) = false
  \/ walkBlocked st delim.

(** ** Facts about the string primitives *)

Example startsWith_ex :
  JS.startsWith (JS.of_string "\[x\]") (JS.of_string "\[") = true
  /\ JS.startsWith (JS.of_string "\[") (JS.of_string "\[x") = false
  /\ JS.startsWith (JS.of_string "x") [] = true.
Proof. repeat split. Qed.

Example slice_ex :
  JS.slice (JS.of_string "abcdef") 2 None = JS.of_string "cdef"
  /\ JS.slice (JS.of_string "abcdef") 1 (Some 3) = JS.of_string "bc"
  /\ JS.slice (JS.of_string "abcdef") 4 (Some 2) = []
  /\ JS.slice (JS.of_string "abcdef") (-2) None = JS.of_string "ef"
  /\ JS.slice (JS.of_string "abcdef") 9 None = [].
Proof. repeat split. Qed.

Example indexOf_ex :
  JS.indexOf (JS.of_string "x\] \]") (JS.of_string "\]") = 1
  /\ JS.indexOf (JS.of_string "x+y") (JS.of_string "\]") = -1
  /\ JS.indexOf (JS.of_string "x+y") [] = 0.
Proof. repeat split. Qed.

Example trim_ex :
  JS.trim ([9; 32] ++ JS.of_string "a b" ++ [160; 13; 10; 8232; 65279])%N
  = JS.of_string "a b"
  /\ JS.trim [32; 12288; 11]%N = []
  /\ JS.trim [8203; 32; 14]%N = [8203; 32; 14]%N.
Proof. repeat split. Qed.

Lemma isLF_true (c : option N) : JS.isLF c = true <-> c = Some JS.LF.
Proof.
  destruct c as [c|]; simpl.
  - rewrite N.eqb_eq. split; congruence.
  - split; discriminate.
Qed.

Lemma isLF_false (c : option N) : JS.isLF c = false <-> c <> Some JS.LF.
Proof.
  rewrite <- isLF_true. destruct (JS.isLF c); split; congruence.
Qed.

Lemma truthy_false (s : JS.str) : JS.truthy s = false <-> s = [].
Proof. destruct s; simpl; split; congruence. Qed.

Lemma truthy_true (s : JS.str) : JS.truthy s = true <-> s <> [].
Proof. destruct s; simpl; split; congruence. Qed.

(** [indexOfFrom] returns the offset of the first occurrence, or [-1]
    when there is none. *)
Lemma indexOfFrom_spec (s pat : JS.str) (i : Z) :
  (0 <= i -> JS.indexOfFrom s pat i = -1 ->
   forall j, JS.startsWith (drop j s) pat = false)
  /\ (0 <= i -> JS.indexOfFrom s pat i <> -1 ->
      exists n : nat,
        JS.indexOfFrom s pat i = i + Z.of_nat n /\ (n <= length s)%nat /\
        JS.startsWith (drop n s) pat = true /\
        forall j, (j < n)%nat -> JS.startsWith (drop j s) pat = false).
Proof.
  revert i. induction s as [|c s IH]; intros i.
  - cbn [JS.indexOfFrom]. destruct (JS.startsWith [] pat) eqn:E; split.
    + intros ? ?; exfalso; lia.
    + intros _ _. exists 0%nat. split; [lia|]. split; [simpl; lia|].
      split; [exact E|]. intros; lia.
    + intros _ _ j. now rewrite drop_nil.
    + intros _ H; congruence.
  - cbn [JS.indexOfFrom]. destruct (JS.startsWith (c :: s) pat) eqn:E; split.
    + intros ? ?; exfalso; lia.
    + intros _ _. exists 0%nat. split; [lia|]. split; [simpl; lia|].
      split; [exact E|]. intros; lia.
    + intros Hi H [|j]; [exact E|]. simpl.
      apply (proj1 (IH (i + 1))); [lia | exact H].
    + intros Hi H.
      destruct (proj2 (IH (i + 1))) as (n & Hn & Hlen & Hat & Hlt); [lia | exact H |].
      exists (S n). simpl. repeat split; [lia | lia | exact Hat |].
      intros [|j] Hj; [exact E | simpl; apply Hlt; lia].
Qed.

Lemma indexOf_absent (s pat : JS.str) :
  JS.indexOf s pat = -1 -> forall j, JS.startsWith (drop j s) pat = false.
Proof.
  intros H. apply (proj1 (indexOfFrom_spec s pat 0)); [lia | exact H].
Qed.

Lemma indexOf_first (s pat : JS.str) (r : Z) :
  JS.indexOf s pat = r -> r <> -1 ->
  0 <= r <= JS.len s /\
  JS.startsWith (drop (Z.to_nat r) s) pat = true /\
  forall j, (j < Z.to_nat r)%nat -> JS.startsWith (drop j s) pat = false.
Proof.
  intros <- Hr. unfold JS.indexOf in *.
  destruct (proj2 (indexOfFrom_spec s pat 0)) as (n & Hn & Hlen & Hat & Hlt);
    [lia | exact Hr |].
  rewrite Hn. unfold JS.len. rewrite Z.add_0_l, Nat2Z.id.
  repeat split; [lia | lia | exact Hat | exact Hlt].
Qed.

(** ** The loops *)

Lemma walk_eq (src : JS.str) (delim : Delimiter.t) (max_ pos : Z) :
  walk src delim max_ pos =
  if decide (pos < max_) then
    if JS.isLF (JS.at_ src pos) then pos
    else if JS.startsWith (JS.slice src pos None) (Delimiter.right delim) then pos
    else walk src delim max_ (pos + 1)
  else pos.
Proof.
  rewrite walk_equation_1 at 1. destruct (decide (pos < max_)); reflexivity.
Qed.

Lemma scanLines_eq (st : StateBlock.t) (delim : Delimiter.t) (endLine : nat)
    (content : JS.str) (nextLine : nat) :
  scanLines st delim endLine content nextLine =
  if decide (nextLine < endLine)%nat then
    let currentLine := lineText st nextLine in
    let rightPos := JS.indexOf currentLine (Delimiter.right delim) in
    if negb (rightPos =? -1) then
      if JS.truthy
           (JS.trim (JS.slice currentLine (rightPos + JS.len (Delimiter.right delim)) None))
      then None
      else Some (content ++ JS.slice currentLine 0 (Some rightPos), S nextLine, true)
    else scanLines st delim endLine (content ++ currentLine ++ [JS.LF]) (S nextLine)
  else Some (content, nextLine, false).
Proof.
  rewrite scanLines_equation_1 at 1. destruct (decide (nextLine < endLine)%nat); reflexivity.
Qed.

(** The walk stops exactly where [right] is first met. *)
Lemma walk_found (src : JS.str) (delim : Delimiter.t) (max_ : Z) (n : nat) :
  forall from p : Z,
    p = from + Z.of_nat n -> p < max_ ->
    (forall q, from <= q <= p -> JS.at_ src q <> Some JS.LF) ->
    (forall q, from <= q < p ->
       JS.startsWith (JS.slice src q None) (Delimiter.right delim) = false) ->
    JS.startsWith (JS.slice src p None) (Delimiter.right delim) = true ->
    walk src delim max_ from = p.
Proof.
  induction n as [|n IH]; intros from p Hp Hlt Hlf Hno Hat; rewrite walk_eq;
    (destruct (decide (from < max_)); [|lia]);
    rewrite (proj2 (isLF_false _) (Hlf from ltac:(lia))).
  - replace from with p by lia. now rewrite Hat.
  - rewrite (Hno from) by lia. apply IH; try assumption; try lia.
    + intros q Hq. apply Hlf. lia.
    + intros q Hq. apply Hno. lia.
Qed.

(** A blocked walk ends on the bound or on a newline. *)
Lemma walk_stops_short (src : JS.str) (delim : Delimiter.t) (max_ : Z) (n : nat) :
  forall from : Z,
    Z.to_nat (max_ - from) = n ->
    (forall p, from <= p < max_ ->
       (forall q, from <= q <= p -> JS.at_ src q <> Some JS.LF) ->
       JS.startsWith (JS.slice src p None) (Delimiter.right delim) = false) ->
    (max_ <=? walk src delim max_ from)
    || JS.isLF (JS.at_ src (walk src delim max_ from)) = true.
Proof.
  induction n as [|n IH]; intros from Hn Hblocked; rewrite walk_eq;
    destruct (decide (from < max_)) as [Hlt|Hge];
    try (apply orb_true_iff; left; apply Z.leb_le; lia).
  destruct (JS.isLF (JS.at_ src from)) eqn:Hlf.
  - rewrite Hlf. apply orb_true_r.
  - rewrite Hblocked; [| lia |].
    + apply IH; [lia|]. intros p Hp Hq. apply Hblocked; [lia|].
      intros q Hq'. destruct (decide (q = from)) as [->|].
      * now apply isLF_false.
      * apply Hq. lia.
    + intros q Hq'. replace q with from by lia. now apply isLF_false.
Qed.

(** The lines from [nextLine] to [k], none of which contains [right]
    before [k] does. *)
Lemma scanLines_found (st : StateBlock.t) (delim : Delimiter.t) (endLine : nat) (n : nat) :
  forall (content : JS.str) (nextLine k : nat) (rp : Z),
    k = (nextLine + n)%nat -> (k < endLine)%nat ->
    (forall j, (nextLine <= j < k)%nat ->
       JS.indexOf (lineText st j) (Delimiter.right delim) = -1) ->
    JS.indexOf (lineText st k) (Delimiter.right delim) = rp -> rp <> -1 ->
    scanLines st delim endLine content nextLine =
    if JS.truthy
         (JS.trim (JS.slice (lineText st k) (rp + JS.len (Delimiter.right delim)) None))
    then None
    else Some (content
               ++ List.flat_map (fun j => lineText st j ++ [JS.LF]) (seq nextLine n)
               ++ JS.slice (lineText st k) 0 (Some rp), S k, true).
Proof.
  induction n as [|n IH]; intros content nextLine k rp Hk Hlt Hno Hat Hrp;
    rewrite scanLines_eq; (destruct (decide (nextLine < endLine)%nat); [|lia]);
    cbv zeta.
  - replace nextLine with k by lia. rewrite Hat.
    apply Z.eqb_neq in Hrp. rewrite Hrp. reflexivity.
  - rewrite (Hno nextLine) by lia. cbn [Z.eqb negb].
    rewrite (IH _ (S nextLine) k rp); try assumption; try lia.
    + cbn [seq List.flat_map]. now rewrite <- !app_assoc.
    + intros j Hj. apply Hno. lia.
Qed.

Lemma scanLines_absent (st : StateBlock.t) (delim : Delimiter.t) (endLine : nat) (n : nat) :
  forall (content : JS.str) (nextLine : nat),
    (endLine - nextLine)%nat = n ->
    (forall j, (nextLine <= j < endLine)%nat ->
       JS.indexOf (lineText st j) (Delimiter.right delim) = -1) ->
    exists content' nextLine',
      scanLines st delim endLine content nextLine = Some (content', nextLine', false).
Proof.
  induction n as [|n IH]; intros content nextLine Hn Hno; rewrite scanLines_eq;
    destruct (decide (nextLine < endLine)%nat); try lia; eauto.
  cbv zeta. rewrite (Hno nextLine) by lia. cbn [Z.eqb negb].
  apply IH; [lia|]. intros j Hj. apply Hno. lia.
Qed.

(** ** The search for the closing delimiter of a block *)

Lemma searchRight_closes (st : StateBlock.t) (delim : Delimiter.t)
    (startLine endLine k : nat) (rp : Z) :
  closesOn st delim startLine endLine k rp ->
  searchRight st delim (lineText st startLine) startLine endLine =
  if JS.truthy (trailingText st delim startLine k rp) then None
  else Some (capturedContent st delim startLine k rp, S k, true).
Proof.
  intros (Hle & Hend & Hno & Hat & Hrp).
  unfold searchRight, trailingText, capturedContent. cbv zeta.
  destruct (decide (k = startLine)) as [->|Hne].
  - unfold searchedText in *. rewrite decide_True in * by reflexivity.
    rewrite Hat. apply Z.eqb_neq in Hrp. rewrite Hrp. reflexivity.
  - assert (Hfirst := Hno startLine ltac:(lia)).
    unfold searchedText in Hfirst. rewrite decide_True in Hfirst by reflexivity.
    rewrite Hfirst. cbn [Z.eqb negb].
    unfold searchedText in Hat |- *. rewrite decide_False in Hat |- * by assumption.
    rewrite decide_True by reflexivity.
    rewrite (scanLines_found st delim endLine (k - S startLine) _ (S startLine) k rp);
      try assumption; try lia.
    + unfold intermediateLines. now rewrite <- !app_assoc.
    + intros j Hj. specialize (Hno j ltac:(lia)).
      unfold searchedText in Hno. rewrite decide_False in Hno by lia. exact Hno.
Qed.

Lemma searchRight_absent (st : StateBlock.t) (delim : Delimiter.t) (startLine endLine : nat) :
  (forall j, j = startLine \/ (startLine < j < endLine)%nat ->
     JS.indexOf (searchedText st delim startLine j) (Delimiter.right delim) = -1) ->
  exists content nextLine,
    searchRight st delim (lineText st startLine) startLine endLine
    = Some (content, nextLine, false).
Proof.
  intros Hno. unfold searchRight. cbv zeta.
  assert (Hfirst := Hno startLine (or_introl eq_refl)).
  unfold searchedText in Hfirst. rewrite decide_True in Hfirst by reflexivity.
  rewrite Hfirst. cbn [Z.eqb negb].
  apply (scanLines_absent st delim endLine (endLine - S startLine)); [reflexivity|].
  intros j Hj. specialize (Hno j ltac:(lia)).
  unfold searchedText in Hno. rewrite decide_False in Hno by lia. exact Hno.
Qed.

(** ** The choice of the display delimiter *)

Lemma matchedDelimiter_none (ds : list Delimiter.t) (text : JS.str) :
  (forall d, d ∈ ds -> Delimiter.display d = true ->
     JS.startsWith text (Delimiter.left d) = false) ->
  matchedDelimiter (List.filter Delimiter.display ds) text = None.
Proof.
  unfold matchedDelimiter. induction ds as [|d ds IH]; intros H; [reflexivity|].
  cbn [List.filter]. destruct (Delimiter.display d) eqn:Hd.
  - cbn [List.find]. rewrite (H d) by (assumption || apply list_elem_of_here).
    apply IH. intros d' Hin. apply H. now apply list_elem_of_further.
  - apply IH. intros d' Hin. apply H. now apply list_elem_of_further.
Qed.

Lemma matchedDelimiter_first (ds1 ds2 : list Delimiter.t) (delim : Delimiter.t)
    (text : JS.str) :
  (forall d, d ∈ ds1 -> Delimiter.display d = true ->
     JS.startsWith text (Delimiter.left d) = false) ->
  Delimiter.display delim = true ->
  JS.startsWith text (Delimiter.left delim) = true ->
  matchedDelimiter (List.filter Delimiter.display (ds1 ++ delim :: ds2)) text = Some delim.
Proof.
  unfold matchedDelimiter. intros H Hd Hs. induction ds1 as [|d ds1 IH].
  - cbn [app List.filter]. rewrite Hd. cbn [List.find]. now rewrite Hs.
  - cbn [app List.filter]. destruct (Delimiter.display d) eqn:Hdd.
    + cbn [List.find]. rewrite (H d) by (assumption || apply list_elem_of_here).
      apply IH. intros d' Hin. apply H. now apply list_elem_of_further.
    + apply IH. intros d' Hin. apply H. now apply list_elem_of_further.
Qed.

(** ** Every scan is covered *)

(** Where the walk ends: nothing before it is a newline or starts
    [right], and if it ends before the bound it is on one of the two. *)
Lemma walk_spec (src : JS.str) (delim : Delimiter.t) (max_ : Z) (n : nat) :
  forall from : Z,
    Z.to_nat (max_ - from) = n ->
    let p := walk src delim max_ from in
    from <= p /\
    (forall q, from <= q < p ->
       q < max_ /\ JS.at_ src q <> Some JS.LF /\
       JS.startsWith (JS.slice src q None) (Delimiter.right delim) = false) /\
    (p < max_ ->
       JS.at_ src p = Some JS.LF \/
       JS.startsWith (JS.slice src p None) (Delimiter.right delim) = true).
Proof.
  induction n as [|n IH]; intros from Hn; cbv zeta; rewrite walk_eq;
    destruct (decide (from < max_)) as [Hlt|Hge]; try lia.
  - repeat split; intros; lia.
  - destruct (JS.isLF (JS.at_ src from)) eqn:Hlf;
      [|destruct (JS.startsWith (JS.slice src from None) (Delimiter.right delim)) eqn:Hat].
    + repeat split; try lia. intros _. left. now apply isLF_true.
    + repeat split; try lia. intros _. now right.
    + destruct (IH (from + 1) ltac:(lia)) as (Hle & Hbefore & Hstop).
      split; [lia|]. split; [|exact Hstop].
      intros q Hq. destruct (decide (q = from)) as [->|Hne].
      * split; [lia|]. split; [now apply isLF_false | exact Hat].
      * apply Hbefore. lia.
Qed.

(** For the inline rule a pair either fails at the cursor or closes at
    some offset: [pairFails] and [closesAt] leave no case out. *)
Lemma pair_fails_or_closes (st : StateInline.t) (delim : Delimiter.t) :
  pairFails st delim \/ exists p, closesAt st delim p.
Proof.
  unfold pairFails, closesAt, walkBlocked. cbv zeta.
  set (src := StateInline.src st). set (max_ := StateInline.posMax st).
  set (from := StateInline.pos st + JS.len (Delimiter.left delim)).
  destruct (JS.startsWith (JS.slice src (StateInline.pos st) None) (Delimiter.left delim));
    [|now left; left].
  destruct (walk_spec src delim max_ _ from eq_refl) as (Hle & Hbefore & Hstop).
  set (p := walk src delim max_ from) in *.
  destruct (decide (p < max_)) as [Hlt|Hge].
  - destruct (JS.isLF (JS.at_ src p)) eqn:Hlf.
    + left; right. intros p' Hp' Hclear.
      destruct (decide (p' < p)) as [Hsmall|Hbig]; [apply Hbefore; lia|].
      exfalso. apply (Hclear p); [lia|]. now apply isLF_true.
    + right. exists p. split; [reflexivity|]. split; [lia|].
      split; [|split].
      * intros q Hq. destruct (decide (q = p)) as [->|Hne]; [now apply isLF_false|].
        apply Hbefore. lia.
      * intros q Hq. now apply Hbefore.
      * destruct (Hstop Hlt) as [Hnl|Hat]; [|exact Hat].
        apply isLF_true in Hnl. congruence.
  - left; right. intros p' Hp' _. apply Hbefore. lia.
Qed.

(** Bounded search for the first line whose searched text contains
    [right]. *)
Lemma first_closing_line (st : StateBlock.t) (delim : Delimiter.t) (startLine : nat)
    (n : nat) :
  (forall j, (startLine <= j < startLine + n)%nat ->
     JS.indexOf (searchedText st delim startLine j) (Delimiter.right delim) = -1)
  \/ exists k, (startLine <= k < startLine + n)%nat /\
       JS.indexOf (searchedText st delim startLine k) (Delimiter.right delim) <> -1 /\
       forall j, (startLine <= j < k)%nat ->
         JS.indexOf (searchedText st delim startLine j) (Delimiter.right delim) = -1.
Proof.
  induction n as [|n [Hnone|(k & Hk & Hat & Hbefore)]].
  - left. intros j Hj. lia.
  - destruct (decide (JS.indexOf (searchedText st delim startLine (startLine + n))
                        (Delimiter.right delim) = -1)) as [Heq|Hne].
    + left. intros j Hj. destruct (decide (j = (startLine + n)%nat)) as [->|];
        [exact Heq | apply Hnone; lia].
    + right. exists (startLine + n)%nat. split; [lia|]. split; [exact Hne|].
      intros j Hj. apply Hnone. lia.
  - right. exists k. split; [lia|]. split; [exact Hat | exact Hbefore].
Qed.

(** For the block rule the chosen pair either closes on some line or on
    none: [closesOn] and the hypothesis of an unclosed block leave no case
    out. *)
Lemma closes_or_unclosed (st : StateBlock.t) (delim : Delimiter.t) (startLine endLine : nat) :
  (exists k rp, closesOn st delim startLine endLine k rp)
  \/ (forall j, j = startLine \/ (startLine < j < endLine)%nat ->
        JS.indexOf (searchedText st delim startLine j) (Delimiter.right delim) = -1).
Proof.
  destruct (first_closing_line st delim startLine (Nat.max 1 (endLine - startLine)))
    as [Hnone|(k & Hk & Hat & Hbefore)].
  - right. intros j Hj. apply Hnone. lia.
  - left. exists k, (JS.indexOf (searchedText st delim startLine k) (Delimiter.right delim)).
    unfold closesOn. split; [lia|]. split; [lia|].
    split; [exact Hbefore|]. split; [reflexivity | exact Hat].
Qed.

(** ** Properties of the rules *)

Section Properties.

Context {Err : Type}.
Variable renderToString : JS.str -> Katex.options -> Err + JS.str.

Abbreviation blockRule := (mathBlockRule renderToString).
Abbreviation inlineRule := (mathInlineRule renderToString).

(** *** The inline loop, pair by pair *)

Lemma inlineLoop_skip (delim : Delimiter.t) (rest : list Delimiter.t)
    (st : StateInline.t) (console : list (string * Err)) (silent : bool) :
  pairFails st delim ->
  inlineLoop renderToString (delim :: rest) st console silent
  = inlineLoop renderToString rest st console silent.
Proof.
  intros Hfail. cbn [inlineLoop]. cbv zeta.
  destruct (JS.startsWith (JS.slice (StateInline.src st) (StateInline.pos st) None)
              (Delimiter.left delim)) eqn:Hleft; [|reflexivity].
  destruct Hfail as [Hfail|Hblocked]; [congruence|].
  cbn [negb].
  rewrite (walk_stops_short (StateInline.src st) delim (StateInline.posMax st)
             _ _ eq_refl Hblocked).
  reflexivity.
Qed.

Lemma inlineLoop_hit (delim : Delimiter.t) (rest : list Delimiter.t)
    (st : StateInline.t) (console : list (string * Err)) (silent : bool) (p : Z) :
  closesAt st delim p ->
  inlineLoop renderToString (delim :: rest) st console silent
  = let after := p + JS.len (Delimiter.right delim) in
    if silent then Run.mk true (StateInline.set_pos st after) console
    else
      match renderToString
              (JS.slice (StateInline.src st)
                 (StateInline.pos st + JS.len (Delimiter.left delim)) (Some p))
              (Katex.mk false "mathml" (Delimiter.display delim)) with
      | inr renderedContent =>
          Run.mk true
            (StateInline.set_pos
               (StateInline.push st
                  (Token.mk "html_inline" "" 0 renderedContent None false)) after)
            console
      | inl e =>
          Run.mk true (StateInline.set_pos st after)
            (console ++ [("KaTeX inline rendering error:"%string, e)])
      end.
Proof.
  intros (Hleft & Hrange & Hlf & Hno & Hat). cbn [inlineLoop]. cbv zeta.
  rewrite Hleft. cbn [negb].
  rewrite (walk_found (StateInline.src st) delim (StateInline.posMax st)
             (Z.to_nat (p - (StateInline.pos st + JS.len (Delimiter.left delim))))
             _ p) by (assumption || lia).
  replace (StateInline.posMax st <=? p) with false by (symmetry; apply Z.leb_gt; lia).
  rewrite (proj2 (isLF_false _) (Hlf p ltac:(lia))), Hat. cbn [orb negb].
  destruct silent; cbn [negb]; [reflexivity|].
  destruct (renderToString _ _); reflexivity.
Qed.

Lemma inlineLoop_app (ds1 ds2 : list Delimiter.t) (st : StateInline.t)
    (console : list (string * Err)) (silent : bool) :
  Forall (pairFails st) ds1 ->
  inlineLoop renderToString (ds1 ++ ds2) st console silent
  = inlineLoop renderToString ds2 st console silent.
Proof.
  induction 1 as [|d ds1 Hd _ IH]; [reflexivity|].
  cbn [app]. now rewrite inlineLoop_skip.
Qed.

(** *** The block rule once the delimiter is chosen *)

Lemma blockRule_closes (options : Options.t) (st : StateBlock.t)
    (console : list (string * Err)) (startLine endLine : nat) (silent : bool)
    (delim : Delimiter.t) (k : nat) (rp : Z) :
  matchedDelimiter (List.filter Delimiter.display (Options.delimiters options))
    (lineText st startLine) = Some delim ->
  closesOn st delim startLine endLine k rp ->
  blockRule options st console startLine endLine silent =
  if JS.truthy (trailingText st delim startLine k rp) then Run.mk false st console
  else if silent then Run.mk true st console
  else
    match renderToString (JS.trim (capturedContent st delim startLine k rp))
            (Katex.mk false "mathml" true) with
    | inr renderedContent =>
        Run.mk true
          (StateBlock.set_line
             (StateBlock.push st
                (Token.mk "math_block" "math" 0 renderedContent
                   (Some (startLine, S k)) true)) (S k))
          console
    | inl e =>
        Run.mk false st (console ++ [("KaTeX block rendering error:"%string, e)])
    end.
Proof.
  intros Hmatch Hcloses. unfold mathBlockRule. cbv zeta.
  rewrite Hmatch, (searchRight_closes _ _ _ _ _ _ Hcloses).
  destruct (JS.truthy _); reflexivity.
Qed.

(** *** The inline rule *)

(** C1 (as amended): a silent inline scan whose first matching pair finds
    [right] at offset [p] returns true without calling the engine, without
    appending a token and without logging; the only field of the parser
    state it changes is the cursor, which is set just past [right]. *)
Theorem inline_silent_probe_advances (options : Options.t) (ds1 ds2 : list Delimiter.t)
    (delim : Delimiter.t) (st : StateInline.t) (console : list (string * Err)) (p : Z) :
  Options.delimiters options = ds1 ++ delim :: ds2 ->
  Forall (pairFails st) ds1 ->
  closesAt st delim p ->
  inlineRule options st console true
  = Run.mk true (StateInline.set_pos st (p + JS.len (Delimiter.right delim))) console.
Proof.
  intros Hds Hfail Hhit. unfold mathInlineRule. rewrite Hds.
  rewrite (inlineLoop_app _ _ _ _ _ Hfail).
  now rewrite (inlineLoop_hit _ _ _ _ _ _ Hhit).
Qed.

(** C2: a non-silent inline scan whose first matching pair finds [right]
    at offset [p], and for whose content the engine throws [e], logs the
    error, appends no token, sets the cursor just past [right] and
    returns true. *)
Theorem inline_render_error_consumes (options : Options.t) (ds1 ds2 : list Delimiter.t)
    (delim : Delimiter.t) (st : StateInline.t) (console : list (string * Err))
    (p : Z) (e : Err) :
  Options.delimiters options = ds1 ++ delim :: ds2 ->
  Forall (pairFails st) ds1 ->
  closesAt st delim p ->
  renderToString
    (JS.slice (StateInline.src st)
       (StateInline.pos st + JS.len (Delimiter.left delim)) (Some p))
    (Katex.mk false "mathml" (Delimiter.display delim)) = inl e ->
  inlineRule options st console false
  = Run.mk true
      (StateInline.mk (StateInline.src st) (p + JS.len (Delimiter.right delim))
         (StateInline.posMax st) (StateInline.pending st) (StateInline.tokens st))
      (console ++ [("KaTeX inline rendering error:"%string, e)]).
Proof.
  intros Hds Hfail Hhit Hthrow. unfold mathInlineRule. rewrite Hds.
  rewrite (inlineLoop_app _ _ _ _ _ Hfail), (inlineLoop_hit _ _ _ _ _ _ Hhit).
  cbv zeta. now rewrite Hthrow.
Qed.

(** C8: configured pairs that do not match at the cursor (their [left]
    does not start there, or it does and the walk meets a newline or the
    bound before [right]) are passed over one by one, the scan going on
    with the remaining pairs from the same state; when every configured
    pair fails the scan returns false and leaves the state, cursor
    included, as it was. *)
Theorem inline_failing_pairs_skipped (ds1 ds2 : list Delimiter.t) (st : StateInline.t)
    (console : list (string * Err)) (silent : bool) :
  Forall (pairFails st) ds1 ->
  inlineRule (Options.mk (ds1 ++ ds2)) st console silent
  = inlineRule (Options.mk ds2) st console silent
  /\ inlineRule (Options.mk ds1) st console silent = Run.mk false st console.
Proof.
  intros Hfail. unfold mathInlineRule. cbn [Options.delimiters]. split.
  - now apply inlineLoop_app.
  - rewrite <- (app_nil_r ds1). now rewrite inlineLoop_app.
Qed.

(** C10: with the default options there is an inline state, cursor at 0
    where [left] opens, in which the two-unit [right] of the pair starts at
    [posMax - 1], the last unit of the buffer being its second unit at
    [posMax]; the scan matches all the same and moves the cursor from 0 to
    just past [right], beyond [posMax]. *)
Theorem inline_right_may_cross_posMax :
  exists (st : StateInline.t) (delim : Delimiter.t),
    delim ∈ Options.delimiters defaultOptions /\
    JS.len (Delimiter.right delim) = 2 /\
    StateInline.pos st = 0 /\
    JS.startsWith (JS.slice (StateInline.src st) (StateInline.pos st) None)
      (Delimiter.left delim) = true /\
    StateInline.pos st + JS.len (Delimiter.left delim) <= StateInline.posMax st - 1 /\
    JS.len (StateInline.src st) = StateInline.posMax st + 1 /\
    JS.startsWith (JS.slice (StateInline.src st) (StateInline.posMax st - 1) None)
      (Delimiter.right delim) = true /\
    forall (console : list (string * Err)) (silent : bool),
      let run := inlineRule defaultOptions st console silent in
      Run.returned run = true /\
      StateInline.pos (Run.state run)
      = StateInline.posMax st - 1 + JS.len (Delimiter.right delim) /\
      StateInline.posMax st < StateInline.pos (Run.state run) /\
      StateInline.pos st < StateInline.pos (Run.state run) /\
      (silent = true ->
       run = Run.mk true
               (StateInline.mk (StateInline.src st) (StateInline.posMax st + 1)
                  (StateInline.posMax st) (StateInline.pending st)
                  (StateInline.tokens st))
               console).
Proof.
  exists (inlineDoc 4), inlinePair.
  split; [apply list_elem_of_further, list_elem_of_here|].
  do 6 (split; [reflexivity || (vm_compute; discriminate)|]).
  intros console silent run. subst run.
  assert (Hfail : Forall (pairFails (inlineDoc 4)) [displayPair]).
  { constructor; [|constructor]. left. reflexivity. }
  assert (Hhit : closesAt (inlineDoc 4) inlinePair 3).
  { unfold closesAt. cbv zeta.
    split; [reflexivity|]. split; [change (2 <= 3 < 4); lia|].
    split; [|split; [|reflexivity]].
    - intros q Hq. change (2 <= q <= 3) in Hq.
      assert (q = 2 \/ q = 3) as [-> | ->] by lia; vm_compute; discriminate.
    - intros q Hq. change (2 <= q < 3) in Hq.
      assert (q = 2) as -> by lia. reflexivity. }
  unfold mathInlineRule.
  change (Options.delimiters defaultOptions) with ([displayPair] ++ inlinePair :: []).
  rewrite (inlineLoop_app _ _ _ _ _ Hfail), (inlineLoop_hit _ _ _ _ _ _ Hhit).
  cbv zeta. destruct silent; [|destruct (renderToString _ _)];
    (split; [reflexivity|]; split; [reflexivity|];
     split; [change (4 < 5); lia|]; split; [change (0 < 5); lia|]);
    (reflexivity || discriminate).
Qed.

(** *** The block rule *)

(** C3: a non-silent block scan that finds a valid close (nothing but
    white space after [right] on the closing line) and for whose trimmed
    content the engine throws [e] returns false; the state is the one it
    started from (no token appended, current line not advanced), only the
    error is logged. *)
Theorem block_render_error_atomic (options : Options.t) (st : StateBlock.t)
    (console : list (string * Err)) (startLine endLine : nat)
    (delim : Delimiter.t) (k : nat) (rp : Z) (e : Err) :
  matchedDelimiter (List.filter Delimiter.display (Options.delimiters options))
    (lineText st startLine) = Some delim ->
  closesOn st delim startLine endLine k rp ->
  trailingText st delim startLine k rp = [] ->
  renderToString (JS.trim (capturedContent st delim startLine k rp))
    (Katex.mk false "mathml" true) = inl e ->
  blockRule options st console startLine endLine false
  = Run.mk false st (console ++ [("KaTeX block rendering error:"%string, e)]).
Proof.
  intros Hmatch Hcloses Htrail Hthrow.
  rewrite (blockRule_closes _ _ _ _ _ _ _ _ _ Hmatch Hcloses).
  now rewrite Htrail, Hthrow.
Qed.

(** C4: when [right] is found, on the opening line or on a later one, and
    the text after it on that line is not empty once trimmed, the block
    scan returns false, silent or not, and leaves state and console
    untouched. *)
Theorem block_trailing_content_rejected (options : Options.t) (st : StateBlock.t)
    (console : list (string * Err)) (startLine endLine : nat) (silent : bool)
    (delim : Delimiter.t) (k : nat) (rp : Z) :
  matchedDelimiter (List.filter Delimiter.display (Options.delimiters options))
    (lineText st startLine) = Some delim ->
  closesOn st delim startLine endLine k rp ->
  trailingText st delim startLine k rp <> [] ->
  blockRule options st console startLine endLine silent = Run.mk false st console.
Proof.
  intros Hmatch Hcloses Htrail.
  rewrite (blockRule_closes _ _ _ _ _ _ _ _ _ Hmatch Hcloses).
  now rewrite (proj2 (truthy_true _) Htrail).
Qed.

(** C5: for a match that closes on a later line [k], the captured content
    is the rest of the opening line after [left], a newline, every line
    strictly between the two followed by a newline, and the part of line
    [k] before [right]; the engine is called on that content trimmed. *)
Theorem block_multiline_content (options : Options.t) (st : StateBlock.t)
    (console : list (string * Err)) (startLine endLine : nat)
    (delim : Delimiter.t) (k : nat) (rp : Z) :
  matchedDelimiter (List.filter Delimiter.display (Options.delimiters options))
    (lineText st startLine) = Some delim ->
  closesOn st delim startLine endLine k rp ->
  (startLine < k)%nat ->
  trailingText st delim startLine k rp = [] ->
  let content :=
    JS.slice (lineText st startLine) (JS.len (Delimiter.left delim)) None ++ [JS.LF]
    ++ List.flat_map (fun j => lineText st j ++ [JS.LF])
         (seq (S startLine) (k - S startLine))
    ++ JS.slice (lineText st k) 0 (Some rp) in
  searchRight st delim (lineText st startLine) startLine endLine
  = Some (content, S k, true)
  /\ blockRule options st console startLine endLine false
     = match renderToString (JS.trim content) (Katex.mk false "mathml" true) with
       | inr renderedContent =>
           Run.mk true
             (StateBlock.mk (StateBlock.src st) (StateBlock.bMarks st)
                (StateBlock.tShift st) (StateBlock.eMarks st) (S k)
                (StateBlock.tokens st
                 ++ [Token.mk "math_block" "math" 0 renderedContent
                       (Some (startLine, S k)) true]))
             console
       | inl e =>
           Run.mk false st (console ++ [("KaTeX block rendering error:"%string, e)])
       end.
Proof.
  intros Hmatch Hcloses Hlater Htrail content.
  assert (Hcontent : capturedContent st delim startLine k rp = content).
  { unfold capturedContent, searchedText, intermediateLines.
    rewrite decide_False by lia. rewrite decide_True by reflexivity. reflexivity. }
  split.
  - rewrite (searchRight_closes _ _ _ _ _ _ Hcloses), Htrail, Hcontent. reflexivity.
  - rewrite (blockRule_closes _ _ _ _ _ _ _ _ _ Hmatch Hcloses), Htrail, Hcontent.
    reflexivity.
Qed.

(** C6: when the opening delimiter matches and neither the rest of the
    opening line nor any later line before [endLine] contains [right],
    the block scan returns false, silent or not; state and console are
    untouched, so nothing of the accumulated buffer is observable. *)
Theorem block_unclosed_rejected (options : Options.t) (st : StateBlock.t)
    (console : list (string * Err)) (startLine endLine : nat) (silent : bool)
    (delim : Delimiter.t) :
  matchedDelimiter (List.filter Delimiter.display (Options.delimiters options))
    (lineText st startLine) = Some delim ->
  (forall j, j = startLine \/ (startLine < j < endLine)%nat ->
     JS.indexOf (searchedText st delim startLine j) (Delimiter.right delim) = -1) ->
  blockRule options st console startLine endLine silent = Run.mk false st console.
Proof.
  intros Hmatch Hno. unfold mathBlockRule. cbv zeta. rewrite Hmatch.
  destruct (searchRight_absent _ _ _ _ Hno) as (content & nextLine & ->).
  reflexivity.
Qed.

(** C7: pairs without the display flag are never candidates; the display
    pairs are tried in configured order on the opening line's text.  When
    no display pair of the configuration [ds1] starts the line the scan
    returns false and changes nothing.  When [delim] is the first display
    pair that does, it is the pair the scan selects, whatever follows it in
    the configuration: the scan behaves as with [delim] alone configured;
    if the [right] of [delim] closes on line [k] the result is the one of
    that close (true for a clean close in silent mode, the token of the
    content captured for [delim] otherwise); and if the [right] of [delim]
    is on no line the scan returns false and changes nothing, with no
    retry of a later pair. *)
Theorem block_first_display_pair_wins (ds1 ds2 : list Delimiter.t) (delim : Delimiter.t)
    (st : StateBlock.t) (console : list (string * Err)) (startLine endLine : nat)
    (silent : bool) :
  (forall d, d ∈ ds1 -> Delimiter.display d = true ->
     JS.startsWith (lineText st startLine) (Delimiter.left d) = false) ->
  Delimiter.display delim = true ->
  JS.startsWith (lineText st startLine) (Delimiter.left delim) = true ->
  blockRule (Options.mk ds1) st console startLine endLine silent = Run.mk false st console
  /\ matchedDelimiter (List.filter Delimiter.display (ds1 ++ delim :: ds2))
       (lineText st startLine) = Some delim
  /\ blockRule (Options.mk (ds1 ++ delim :: ds2)) st console startLine endLine silent
     = blockRule (Options.mk [delim]) st console startLine endLine silent
  /\ (forall (k : nat) (rp : Z),
        closesOn st delim startLine endLine k rp ->
        blockRule (Options.mk (ds1 ++ delim :: ds2)) st console startLine endLine silent
        = if JS.truthy (trailingText st delim startLine k rp) then Run.mk false st console
          else if silent then Run.mk true st console
          else
            match renderToString (JS.trim (capturedContent st delim startLine k rp))
                    (Katex.mk false "mathml" true) with
            | inr renderedContent =>
                Run.mk true
                  (StateBlock.mk (StateBlock.src st) (StateBlock.bMarks st)
                     (StateBlock.tShift st) (StateBlock.eMarks st) (S k)
                     (StateBlock.tokens st
                      ++ [Token.mk "math_block" "math" 0 renderedContent
                            (Some (startLine, S k)) true]))
                  console
            | inl e =>
                Run.mk false st (console ++ [("KaTeX block rendering error:"%string, e)])
            end)
  /\ ((forall j, j = startLine \/ (startLine < j < endLine)%nat ->
         JS.indexOf (searchedText st delim startLine j) (Delimiter.right delim) = -1) ->
      blockRule (Options.mk (ds1 ++ delim :: ds2)) st console startLine endLine silent
      = Run.mk false st console).
Proof.
  intros Hnone Hdisplay Hleft.
  pose proof (matchedDelimiter_first ds1 ds2 delim _ Hnone Hdisplay Hleft) as Hsel.
  split; [|split; [exact Hsel|split; [|split]]].
  - unfold mathBlockRule. cbv zeta. cbn [Options.delimiters].
    now rewrite (matchedDelimiter_none _ _ Hnone).
  - unfold mathBlockRule. cbv zeta. cbn [Options.delimiters]. rewrite Hsel.
    rewrite (matchedDelimiter_first [] [] delim _)
      by (assumption || (intros d Hd; inversion Hd)).
    reflexivity.
  - intros k rp Hcloses.
    now rewrite (blockRule_closes (Options.mk (ds1 ++ delim :: ds2)) _ _ _ _ _ _ _ _
                   Hsel Hcloses).
  - intros Hno.
    now apply (block_unclosed_rejected (Options.mk (ds1 ++ delim :: ds2)) _ _ _ _ _ delim).
Qed.

(** *** The renderer *)

(** C9: after registration the renderer-dispatch table maps the
    block-math kind to a rule that, for every token stream and every index
    in it, returns the content stored on that token, unchanged. *)
Theorem math_block_renderer_identity (md md' : MarkdownIt.t Err) (options : option Options.t)
    (tokens : list Token.t) (idx : nat) (token : Token.t) :
  plugin renderToString md options = Some md' ->
  tokens !! idx = Some token ->
  exists rule : MarkdownIt.rendererRule,
    MarkdownIt.renderer_rules md' !! "math_block"%string = Some rule /\
    rule tokens idx = Some (Token.content token).
Proof.
  intros Hplugin Hidx. unfold plugin in Hplugin.
  destruct (Ruler.before _ _ _ _) as [block|]; [|discriminate].
  destruct (Ruler.after _ _ _ _) as [inline|]; [|discriminate].
  cbn in Hplugin. injection Hplugin as <-.
  exists mathBlockRenderer. cbn [MarkdownIt.renderer_rules]. split.
  - apply lookup_insert_eq.
  - unfold mathBlockRenderer. now rewrite Hidx.
Qed.

End Properties.

(** ** The properties on the sample documents *)

(** [displayPair] does not open [\(x\)]. *)
Lemma inlineDoc_displayPair_fails (posMax : Z) :
  Forall (pairFails (inlineDoc posMax)) [displayPair].
Proof. constructor; [|constructor]. left. reflexivity. Qed.

(** In [\(x\)], [inlinePair] closes at offset 3. *)
Lemma inlineDoc_closesAt : closesAt (inlineDoc 5) inlinePair 3.
Proof.
  unfold closesAt. cbv zeta.
  split; [reflexivity|]. split; [change (2 <= 3 < 5); lia|].
  split; [|split; [|reflexivity]].
  - intros q Hq. change (2 <= q <= 3) in Hq.
    assert (q = 2 \/ q = 3) as [-> | ->] by lia; vm_compute; discriminate.
  - intros q Hq. change (2 <= q < 3) in Hq.
    assert (q = 2) as -> by lia. reflexivity.
Qed.

(** The three-line block closes on its third line, at offset 0. *)
Lemma threeLineDoc_closesOn : closesOn threeLineDoc displayPair 0 3 2 0.
Proof.
  unfold closesOn. split; [lia|]. split; [right; lia|].
  split; [|split; [reflexivity | discriminate]].
  intros j Hj. assert (j = 0 \/ j = 1)%nat as [-> | ->] by lia; reflexivity.
Qed.

(** [\[x\] trailing text] closes on its opening line, at offset 1 of the
    text after [\[]. *)
Lemma trailingDoc_closesOn : closesOn trailingDoc displayPair 0 1 0 1.
Proof.
  unfold closesOn. split; [lia|]. split; [left; reflexivity|].
  split; [|split; [reflexivity | discriminate]].
  intros j Hj. lia.
Qed.

(** C1 as stated fails: on [\(x\)] with the default options the silent
    scan finds [\)] at offset 3 and returns true, but the cursor, 0
    before the call, is 5 after it. *)
Lemma silent_probe_moves_cursor :
  closesAt (inlineDoc 5) inlinePair 3 /\
  let run := mathInlineRule echoEngine defaultOptions (inlineDoc 5) [] true in
  Run.returned run = true /\
  StateInline.pos (inlineDoc 5) = 0 /\
  StateInline.pos (Run.state run) = 5 /\
  Run.state run <> inlineDoc 5.
Proof.
  split; [exact inlineDoc_closesAt|].
  cbv zeta. repeat split; try reflexivity.
  vm_compute. discriminate.
Qed.

(** The silent scan of [\(x\)] with the default options: true, cursor at 5,
    nothing else changed. *)
Lemma inline_silent_probe_advances_witness :
  mathInlineRule echoEngine defaultOptions (inlineDoc 5) [] true
  = Run.mk true (StateInline.mk (JS.of_string "\(x\)") 5 5 [] []) [].
Proof.
  apply (inline_silent_probe_advances echoEngine defaultOptions
           [displayPair] [] inlinePair (inlineDoc 5) [] 3).
  - reflexivity.
  - apply inlineDoc_displayPair_fails.
  - exact inlineDoc_closesAt.
Defined.

(** The same text scanned for real with an engine that throws. *)
Lemma inline_render_error_consumes_witness :
  mathInlineRule faultyEngine defaultOptions (inlineDoc 5) [] false
  = Run.mk true (StateInline.mk (JS.of_string "\(x\)") 5 5 [] [])
      [("KaTeX inline rendering error:"%string, "ParseError"%string)].
Proof.
  apply (inline_render_error_consumes faultyEngine defaultOptions
           [displayPair] [] inlinePair (inlineDoc 5) [] 3 "ParseError"%string).
  - reflexivity.
  - apply inlineDoc_displayPair_fails.
  - exact inlineDoc_closesAt.
  - reflexivity.
Defined.

(** On [\(x\)], [displayPair] does not open and [parenDollarPair] opens but
    never closes: both are passed over. *)
Lemma inline_failing_pairs_skipped_witness :
  mathInlineRule echoEngine
    (Options.mk ([displayPair; parenDollarPair] ++ [inlinePair])) (inlineDoc 5) [] false
  = mathInlineRule echoEngine (Options.mk [inlinePair]) (inlineDoc 5) [] false
  /\ mathInlineRule echoEngine (Options.mk [displayPair; parenDollarPair]) (inlineDoc 5) [] false
     = Run.mk false (inlineDoc 5) [].
Proof.
  apply (inline_failing_pairs_skipped echoEngine
           [displayPair; parenDollarPair] [inlinePair] (inlineDoc 5) [] false).
  constructor; [left; reflexivity|]. constructor; [|constructor].
  right. intros p Hp _. change (2 <= p < 5) in Hp.
  assert (p = 2 \/ p = 3 \/ p = 4) as [-> | [-> | ->]] by lia; reflexivity.
Defined.

(** The three-line block with an engine that throws. *)
Lemma block_render_error_atomic_witness :
  mathBlockRule faultyEngine defaultOptions threeLineDoc [] 0 3 false
  = Run.mk false threeLineDoc
      [("KaTeX block rendering error:"%string, "ParseError"%string)].
Proof.
  apply (block_render_error_atomic faultyEngine defaultOptions threeLineDoc [] 0 3
           displayPair 2 0 "ParseError"%string).
  - reflexivity.
  - exact threeLineDoc_closesOn.
  - reflexivity.
  - reflexivity.
Defined.

(** [\[x\] trailing text] is left to the other block rules. *)
Lemma block_trailing_content_rejected_witness :
  mathBlockRule echoEngine defaultOptions trailingDoc [] 0 1 false
  = Run.mk false trailingDoc [].
Proof.
  apply (block_trailing_content_rejected echoEngine defaultOptions trailingDoc [] 0 1
           false displayPair 0 1).
  - reflexivity.
  - exact trailingDoc_closesOn.
  - vm_compute. discriminate.
Defined.

(** The three-line block: the buffer is a newline, [x+y ] and a newline, and
    the token holds the markup of [x+y]. *)
Lemma block_multiline_content_witness :
  searchRight threeLineDoc displayPair (lineText threeLineDoc 0) 0 3
  = Some ([JS.LF] ++ JS.of_string "x+y " ++ [JS.LF], 3%nat, true)
  /\ mathBlockRule echoEngine defaultOptions threeLineDoc [] 0 3 false
     = Run.mk true
         (StateBlock.mk (StateBlock.src threeLineDoc) [0; 3; 9; 11] [0; 1; 0; 0]
            [2; 8; 11; 11] 3
            [Token.mk "math_block" "math" 0 (JS.of_string "<math>x+y</math>")
               (Some (0%nat, 3%nat)) true])
         [].
Proof.
  apply (block_multiline_content echoEngine defaultOptions threeLineDoc [] 0 3
           displayPair 2 0).
  - reflexivity.
  - exact threeLineDoc_closesOn.
  - lia.
  - reflexivity.
Defined.

(** [\[x+y] is never closed. *)
Lemma block_unclosed_rejected_witness :
  mathBlockRule echoEngine defaultOptions unclosedDoc [] 0 1 false
  = Run.mk false unclosedDoc [].
Proof.
  apply (block_unclosed_rejected echoEngine defaultOptions unclosedDoc [] 0 1 false
           displayPair).
  - reflexivity.
  - intros j [-> | Hj]; [reflexivity | lia].
Defined.

(** On the three-line block, [plainBracketPair] has no display flag and
    [dollarPair] does not open.  With [displayPair] next, it is selected
    and the scan emits the token of [x+y]; with [mixedPair] next, it is
    selected, its [\)] is on no line, and the scan returns false although
    [displayPair] after it would close. *)
Lemma block_first_display_pair_wins_witness :
  (matchedDelimiter
     (List.filter Delimiter.display
        ([plainBracketPair; dollarPair] ++ displayPair :: [mixedPair]))
     (lineText threeLineDoc 0) = Some displayPair
   /\ mathBlockRule echoEngine
        (Options.mk ([plainBracketPair; dollarPair] ++ displayPair :: [mixedPair]))
        threeLineDoc [] 0 3 false
      = Run.mk true
          (StateBlock.mk (StateBlock.src threeLineDoc) [0; 3; 9; 11] [0; 1; 0; 0]
             [2; 8; 11; 11] 3
             [Token.mk "math_block" "math" 0 (JS.of_string "<math>x+y</math>")
                (Some (0%nat, 3%nat)) true])
          [])
  /\ (mathBlockRule echoEngine (Options.mk [plainBracketPair; dollarPair])
        threeLineDoc [] 0 3 false
      = Run.mk false threeLineDoc []
      /\ mathBlockRule echoEngine
           (Options.mk ([plainBracketPair; dollarPair] ++ mixedPair :: [displayPair]))
           threeLineDoc [] 0 3 false
         = Run.mk false threeLineDoc []).
Proof.
  assert (Hnone : forall d, d ∈ [plainBracketPair; dollarPair] ->
            Delimiter.display d = true ->
            JS.startsWith (lineText threeLineDoc 0) (Delimiter.left d) = false).
  { intros d Hd Hdisplay.
    apply elem_of_cons in Hd as [-> | Hd]; [discriminate Hdisplay|].
    apply elem_of_cons in Hd as [-> | Hd]; [reflexivity|].
    inversion Hd. }
  split.
  - destruct (block_first_display_pair_wins echoEngine [plainBracketPair; dollarPair]
                [mixedPair] displayPair threeLineDoc [] 0 3 false Hnone eq_refl eq_refl)
      as (_ & Hsel & _ & Hclose & _).
    split; [exact Hsel|].
    exact (Hclose 2%nat 0 threeLineDoc_closesOn).
  - destruct (block_first_display_pair_wins echoEngine [plainBracketPair; dollarPair]
                [displayPair] mixedPair threeLineDoc [] 0 3 false Hnone eq_refl eq_refl)
      as (Hfalse & _ & _ & _ & Hunclosed).
    split; [exact Hfalse|].
    apply Hunclosed. intros j [-> | Hj]; [reflexivity|].
    assert (j = 1 \/ j = 2)%nat as [-> | ->] by lia; reflexivity.
Defined.

(** The registered rule applied to a stream holding [mathToken]. *)
Lemma math_block_renderer_identity_witness :
  plugin echoEngine hostMd None = Some registeredMd
  /\ exists rule : MarkdownIt.rendererRule,
       MarkdownIt.renderer_rules registeredMd !! "math_block"%string = Some rule
       /\ rule [mathToken] 0%nat = Some (Token.content mathToken).
Proof.
  split; [reflexivity|].
  apply (math_block_renderer_identity echoEngine hostMd registeredMd None
           [mathToken] 0%nat mathToken).
  - reflexivity.
  - reflexivity.
Defined.

(** * Further properties of the rules *)

(** ** More facts about the string primitives *)

Lemma slice_from (s : JS.str) (a : Z) :
  0 <= a <= JS.len s -> JS.slice s a None = drop (Z.to_nat a) s.
Proof.
  intros Ha. unfold JS.slice, JS.relIndex, JS.len in *. cbv zeta.
  destruct (a <? 0) eqn:E; [apply Z.ltb_lt in E; lia|].
  rewrite Z.min_l by lia. apply take_ge. rewrite length_drop. lia.
Qed.

Lemma slice_between (s : JS.str) (a b : Z) :
  0 <= a <= b -> b <= JS.len s ->
  JS.slice s a (Some b) = take (Z.to_nat (b - a)) (drop (Z.to_nat a) s).
Proof.
  intros Ha Hb. unfold JS.slice, JS.relIndex, JS.len in *. cbv zeta.
  destruct (a <? 0) eqn:Ea; [apply Z.ltb_lt in Ea; lia|].
  destruct (b <? 0) eqn:Eb; [apply Z.ltb_lt in Eb; lia|].
  now rewrite !Z.min_l by lia.
Qed.

Lemma len_app (s t : JS.str) : JS.len (s ++ t) = JS.len s + JS.len t.
Proof. unfold JS.len. rewrite length_app. lia. Qed.

Lemma len_nonneg (s : JS.str) : 0 <= JS.len s.
Proof. unfold JS.len. lia. Qed.

Lemma slice_from_app (pre rest : JS.str) :
  JS.slice (pre ++ rest) (JS.len pre) None = rest.
Proof.
  rewrite slice_from by (rewrite len_app; pose proof (len_nonneg pre);
                          pose proof (len_nonneg rest); lia).
  unfold JS.len. rewrite Nat2Z.id. apply drop_app_length.
Qed.

Lemma slice_mid (pre mid rest : JS.str) :
  JS.slice (pre ++ mid ++ rest) (JS.len pre) (Some (JS.len pre + JS.len mid)) = mid.
Proof.
  pose proof (len_nonneg pre). pose proof (len_nonneg mid). pose proof (len_nonneg rest).
  rewrite slice_between by (rewrite ?len_app; lia).
  unfold JS.len. rewrite Nat2Z.id, drop_app_length.
  replace (Z.to_nat _) with (length mid) by lia. apply take_app_length.
Qed.

Lemma slice_to_app (mid rest : JS.str) :
  JS.slice (mid ++ rest) 0 (Some (JS.len mid)) = mid.
Proof. exact (slice_mid [] mid rest). Qed.

Lemma startsWith_app (pat rest : JS.str) : JS.startsWith (pat ++ rest) pat = true.
Proof.
  induction pat as [|p pat IH]; [now destruct rest|].
  cbn. now rewrite N.eqb_refl, IH.
Qed.

Lemma startsWith_prefix (s pat : JS.str) :
  JS.startsWith s pat = true <-> exists rest, s = pat ++ rest.
Proof.
  split.
  - revert s. induction pat as [|p pat IH]; intros s H; [now exists s|].
    destruct s as [|c s]; [discriminate|]. cbn in H.
    apply andb_true_iff in H as [Hc Hs]. apply N.eqb_eq in Hc as ->.
    destruct (IH s Hs) as [rest ->]. now exists rest.
  - intros [rest ->]. apply startsWith_app.
Qed.

Lemma indexOf_intro (s pat : JS.str) (n : nat) :
  JS.startsWith (drop n s) pat = true ->
  (forall j, (j < n)%nat -> JS.startsWith (drop j s) pat = false) ->
  JS.indexOf s pat = Z.of_nat n.
Proof.
  intros Hat Hbefore.
  destruct (decide (JS.indexOf s pat = -1)) as [Habs|Hfound].
  - rewrite (indexOf_absent s pat Habs n) in Hat. discriminate.
  - destruct (indexOf_first s pat _ eq_refl Hfound) as (Hr & Hat' & Hbefore').
    destruct (Nat.lt_trichotomy (Z.to_nat (JS.indexOf s pat)) n) as [Hlt|[Heq|Hgt]].
    + rewrite (Hbefore _ Hlt) in Hat'. discriminate.
    + lia.
    + rewrite (Hbefore' _ Hgt) in Hat. discriminate.
Qed.

Lemma at_app (pre s : JS.str) (j : nat) :
  JS.at_ (pre ++ s) (JS.len pre + Z.of_nat j) = s !! j.
Proof.
  unfold JS.at_, JS.len. destruct (_ <? 0) eqn:E; [apply Z.ltb_lt in E; lia|].
  replace (Z.to_nat _) with (length pre + j)%nat by lia.
  unfold JS.str in *. rewrite lookup_app_r by lia. f_equal. lia.
Qed.

(** The units of a slice are units of the string at offsets within the
    bounds of the slice. *)
Lemma elem_of_slice (s : JS.str) (a b : Z) (x : N) :
  0 <= a -> 0 <= b -> x ∈ JS.slice s a (Some b) ->
  exists q, a <= q < b /\ JS.at_ s q = Some x.
Proof.
  intros Ha Hb. unfold JS.slice, JS.relIndex. cbv zeta.
  destruct (a <? 0) eqn:Ea; [apply Z.ltb_lt in Ea; lia|].
  destruct (b <? 0) eqn:Eb; [apply Z.ltb_lt in Eb; lia|].
  intros Hin. apply elem_of_take in Hin as (i & Hi & Hlt).
  rewrite lookup_drop in Hi.
  assert (Hlen := lookup_lt_Some _ _ _ Hi). unfold JS.len in *.
  exists (a + Z.of_nat i).
  destruct (Z.min_spec a (Z.of_nat (length s))) as [[? Hmin]|[? Hmin]];
    rewrite Hmin in *; [|lia].
  destruct (Z.min_spec b (Z.of_nat (length s))) as [[? Hmin']|[? Hmin']];
    rewrite Hmin' in *; (split; [lia|]).
  all: unfold JS.at_; replace (a + Z.of_nat i <? 0) with false
         by (symmetry; apply Z.ltb_ge; lia);
    rewrite <- Hi; f_equal; lia.
Qed.

(** ** Which pair decides a scan *)

Lemma closesAt_not_fails (st : StateInline.t) (delim : Delimiter.t) (p : Z) :
  closesAt st delim p -> pairFails st delim -> False.
Proof.
  intros (Hleft & Hrange & Hlf & _ & Hat) [Hno|Hblocked]; [congruence|].
  rewrite (Hblocked p Hrange Hlf) in Hat. discriminate.
Qed.

(** The configured pairs either all fail at the cursor, or split around
    the first one that closes. *)
Lemma delimiters_split (st : StateInline.t) (ds : list Delimiter.t) :
  Forall (pairFails st) ds
  \/ exists ds1 delim ds2 p,
       ds = ds1 ++ delim :: ds2 /\ Forall (pairFails st) ds1 /\ closesAt st delim p.
Proof.
  induction ds as [|d ds [Hall|(ds1 & delim & ds2 & p & -> & Hfail & Hhit)]].
  - left. constructor.
  - destruct (pair_fails_or_closes st d) as [Hd|[p Hp]].
    + left. now constructor.
    + right. exists [], d, ds, p. repeat split; [constructor | apply Hp..].
  - destruct (pair_fails_or_closes st d) as [Hd|[p' Hp']].
    + right. exists (d :: ds1), delim, ds2, p. split; [reflexivity|].
      split; [now constructor | exact Hhit].
    + right. exists [], d, (ds1 ++ delim :: ds2), p'.
      repeat split; [constructor | apply Hp'..].
Qed.

(** Pushing a token leaves no pending text: what was pending is in the
    stream, before the new token. *)
Lemma push_flushes_pending (st : StateInline.t) (tok : Token.t) :
  StateInline.push st tok
  = StateInline.mk (StateInline.src st) (StateInline.pos st) (StateInline.posMax st) []
      (StateInline.tokens st ++ pendingText st ++ [tok]).
Proof.
  unfold StateInline.push, StateInline.pushPending, pendingText.
  destruct (StateInline.pending st) as [|c rest] eqn:Hpending; cbn.
  - now rewrite Hpending.
  - now rewrite <- app_assoc.
Qed.

Section InlineCoverage.

Context {Err : Type}.
Variable renderToString : JS.str -> Katex.options -> Err + JS.str.

Abbreviation blockRule := (mathBlockRule renderToString).
Abbreviation inlineRule := (mathInlineRule renderToString).

Lemma inlineRule_hit (options : Options.t) (ds1 ds2 : list Delimiter.t)
    (delim : Delimiter.t) (st : StateInline.t) (console : list (string * Err))
    (silent : bool) (p : Z) :
  Options.delimiters options = ds1 ++ delim :: ds2 ->
  Forall (pairFails st) ds1 ->
  closesAt st delim p ->
  inlineRule options st console silent
  = let after := p + JS.len (Delimiter.right delim) in
    if silent then Run.mk true (StateInline.set_pos st after) console
    else
      match renderToString
              (JS.slice (StateInline.src st)
                 (StateInline.pos st + JS.len (Delimiter.left delim)) (Some p))
              (Katex.mk false "mathml" (Delimiter.display delim)) with
      | inr renderedContent =>
          Run.mk true
            (StateInline.set_pos
               (StateInline.push st
                  (Token.mk "html_inline" "" 0 renderedContent None false)) after)
            console
      | inl e =>
          Run.mk true (StateInline.set_pos st after)
            (console ++ [("KaTeX inline rendering error:"%string, e)])
      end.
Proof.
  intros Hds Hfail Hhit. unfold mathInlineRule. rewrite Hds.
  rewrite (inlineLoop_app _ _ _ _ _ _ Hfail).
  apply (inlineLoop_hit _ _ _ _ _ _ _ Hhit).
Qed.

Lemma inlineRule_miss (options : Options.t) (st : StateInline.t)
    (console : list (string * Err)) (silent : bool) :
  Forall (pairFails st) (Options.delimiters options) ->
  inlineRule options st console silent = Run.mk false st console.
Proof.
  intros Hfail. unfold mathInlineRule.
  rewrite <- (app_nil_r (Options.delimiters options)).
  now rewrite (inlineLoop_app _ _ _ _ _ _ Hfail).
Qed.

(** X1: the inline scan returns true exactly when some configured pair
    opens at the cursor and meets its [right] before the bound and before
    any newline; silent mode, console and engine play no part in it. *)
Theorem inline_returns_true_iff (options : Options.t) (st : StateInline.t)
    (console : list (string * Err)) (silent : bool) :
  Run.returned (inlineRule options st console silent) = true
  <-> Exists (fun delim => exists p, closesAt st delim p) (Options.delimiters options).
Proof.
  destruct (delimiters_split st (Options.delimiters options))
    as [Hall|(ds1 & delim & ds2 & p & Hds & Hfail & Hhit)].
  - rewrite (inlineRule_miss _ _ _ _ Hall). cbn. split; [discriminate|].
    intros Hex. apply Exists_exists in Hex as (d & Hin & q & Hq).
    rewrite Forall_forall in Hall. destruct (closesAt_not_fails _ _ _ Hq (Hall d Hin)).
  - rewrite (inlineRule_hit _ _ _ _ _ _ _ _ Hds Hfail Hhit). cbv zeta. split.
    + intros _. rewrite Hds. apply Exists_app. right. constructor. now exists p.
    + intros _. destruct silent; [reflexivity|]. now destruct (renderToString _ _).
Qed.

(** X2: an inline scan that returns false has changed nothing: same
    state, cursor included, and same console. *)
Theorem inline_false_leaves_state (options : Options.t) (st : StateInline.t)
    (console : list (string * Err)) (silent : bool) :
  Run.returned (inlineRule options st console silent) = false ->
  inlineRule options st console silent = Run.mk false st console.
Proof.
  destruct (delimiters_split st (Options.delimiters options))
    as [Hall|(ds1 & delim & ds2 & p & Hds & Hfail & Hhit)].
  - intros _. now apply inlineRule_miss.
  - rewrite (inlineRule_hit _ _ _ _ _ _ _ _ Hds Hfail Hhit). cbv zeta.
    destruct silent; [discriminate|]. now destruct (renderToString _ _).
Qed.

(** X4: a matching inline scan moves the cursor forward by at least the
    lengths of the [left] and [right] of some configured pair, so with
    non-empty delimiters the cursor always advances. *)
Theorem inline_cursor_progress (options : Options.t) (st : StateInline.t)
    (console : list (string * Err)) (silent : bool) :
  Run.returned (inlineRule options st console silent) = true ->
  exists delim, delim ∈ Options.delimiters options /\
    StateInline.pos st + JS.len (Delimiter.left delim) + JS.len (Delimiter.right delim)
    <= StateInline.pos (Run.state (inlineRule options st console silent)).
Proof.
  destruct (delimiters_split st (Options.delimiters options))
    as [Hall|(ds1 & delim & ds2 & p & Hds & Hfail & Hhit)].
  - rewrite (inlineRule_miss _ _ _ _ Hall). discriminate.
  - intros _. exists delim. split.
    + rewrite Hds. apply elem_of_app. right. apply list_elem_of_here.
    + rewrite (inlineRule_hit _ _ _ _ _ _ _ _ Hds Hfail Hhit). cbv zeta.
      destruct Hhit as (_ & Hrange & _).
      destruct silent; [|destruct (renderToString _ _)]; cbn; lia.
Qed.

(** X5: a non-silent inline scan whose first matching pair meets [right]
    at offset [p], and for whose content the engine returns markup, has the
    host turn any pending text into a [text] token, appends after it one
    [html_inline] token holding that markup, asks the engine for the pair's
    own display mode, sets the cursor just past [right] and logs nothing. *)
Theorem inline_success_emits_token (options : Options.t) (ds1 ds2 : list Delimiter.t)
    (delim : Delimiter.t) (st : StateInline.t) (console : list (string * Err))
    (p : Z) (markup : JS.str) :
  Options.delimiters options = ds1 ++ delim :: ds2 ->
  Forall (pairFails st) ds1 ->
  closesAt st delim p ->
  renderToString
    (JS.slice (StateInline.src st)
       (StateInline.pos st + JS.len (Delimiter.left delim)) (Some p))
    (Katex.mk false "mathml" (Delimiter.display delim)) = inr markup ->
  inlineRule options st console false
  = Run.mk true
      (StateInline.mk (StateInline.src st) (p + JS.len (Delimiter.right delim))
         (StateInline.posMax st) []
         (StateInline.tokens st
          ++ (if JS.truthy (StateInline.pending st)
              then [Token.mk "text" "" 0 (StateInline.pending st) None false]
              else [])
          ++ [Token.mk "html_inline" "" 0 markup None false]))
      console.
Proof.
  intros Hds Hfail Hhit Hok.
  rewrite (inlineRule_hit _ _ _ _ _ _ _ _ Hds Hfail Hhit). cbv zeta.
  now rewrite Hok, push_flushes_pending.
Qed.

(** X6: the first configured pair that closes decides the scan: pairs
    after it never change the result, even when they would close too. *)
Theorem inline_first_closing_pair_wins (ds1 ds2 : list Delimiter.t) (delim : Delimiter.t)
    (st : StateInline.t) (console : list (string * Err)) (silent : bool) (p : Z) :
  Forall (pairFails st) ds1 ->
  closesAt st delim p ->
  inlineRule (Options.mk (ds1 ++ delim :: ds2)) st console silent
  = inlineRule (Options.mk [delim]) st console silent.
Proof.
  intros Hfail Hhit.
  rewrite (inlineRule_hit (Options.mk (ds1 ++ delim :: ds2)) ds1 ds2 delim _ _ _ p
             eq_refl Hfail Hhit).
  rewrite (inlineRule_hit (Options.mk [delim]) [] [] delim _ _ _ p
             eq_refl (Forall_nil_2 _) Hhit).
  reflexivity.
Qed.

(** X7: when no configured [left] ends strictly before the bound (the
    cursor is at the end of the text, or the list of pairs is empty), the
    scan returns false and changes nothing. *)
Theorem inline_no_match_at_bound (options : Options.t) (st : StateInline.t)
    (console : list (string * Err)) (silent : bool) :
  (forall delim, delim ∈ Options.delimiters options ->
     StateInline.posMax st <= StateInline.pos st + JS.len (Delimiter.left delim)) ->
  inlineRule options st console silent = Run.mk false st console.
Proof.
  intros Hbound. apply inlineRule_miss. apply Forall_forall. intros d Hd.
  right. intros p Hp. specialize (Hbound d Hd). lia.
Qed.

End InlineCoverage.

(** The text [pre ++ left ++ content ++ right ++ post] with the cursor
    after [pre] closes after [content]. *)
Lemma closesAt_compose (delim : Delimiter.t) (st : StateInline.t)
    (pre content post : JS.str) :
  StateInline.src st
  = pre ++ Delimiter.left delim ++ content ++ Delimiter.right delim ++ post ->
  StateInline.pos st = JS.len pre ->
  JS.len pre + JS.len (Delimiter.left delim) + JS.len content < StateInline.posMax st ->
  JS.LF ∉ content ->
  (exists c rest, Delimiter.right delim = c :: rest /\ c <> JS.LF) ->
  (forall j, (j < length content)%nat ->
     JS.startsWith (drop j (content ++ Delimiter.right delim ++ post))
       (Delimiter.right delim) = false) ->
  closesAt st delim (JS.len pre + JS.len (Delimiter.left delim) + JS.len content).
Proof.
  intros Hsrc Hpos Hmax Hlf (c & rest & Hright & Hc) Hno.
  set (tail := content ++ Delimiter.right delim ++ post) in *.
  assert (Hsrc' : StateInline.src st = (pre ++ Delimiter.left delim) ++ tail)
    by (rewrite Hsrc; unfold tail; now rewrite <- !app_assoc).
  assert (Hlen : JS.len (pre ++ Delimiter.left delim)
                 = JS.len pre + JS.len (Delimiter.left delim)) by apply len_app.
  pose proof (len_nonneg pre). pose proof (len_nonneg (Delimiter.left delim)).
  pose proof (len_nonneg content). pose proof (len_nonneg tail).
  assert (Hdrop : forall j : nat, (j <= length content)%nat ->
            JS.slice (StateInline.src st)
              (JS.len pre + JS.len (Delimiter.left delim) + Z.of_nat j) None
            = drop j tail).
  { intros j Hj. rewrite Hsrc', slice_from.
    - rewrite <- Hlen. unfold JS.len. rewrite <- Nat2Z.inj_add, Nat2Z.id.
      apply drop_app_add.
    - rewrite len_app, Hlen. unfold tail. rewrite len_app. unfold JS.len in *. lia. }
  unfold closesAt. cbv zeta. rewrite Hpos. split; [|split; [|split; [|split]]].
  - rewrite Hsrc, slice_from_app. apply startsWith_app.
  - lia.
  - intros q Hq.
    replace q with (JS.len (pre ++ Delimiter.left delim)
                    + Z.of_nat (Z.to_nat (q - JS.len (pre ++ Delimiter.left delim))))
      by (rewrite Hlen; lia).
    rewrite Hsrc', at_app. set (j := Z.to_nat _).
    assert (Hj : (j <= length content)%nat) by (unfold j, JS.len in *; lia).
    unfold tail. destruct (decide (j = length content)) as [->|Hne].
    + unfold JS.str in *. rewrite lookup_app_r, Nat.sub_diag, Hright by lia.
      cbn. congruence.
    + unfold JS.str in *. rewrite lookup_app_l by lia. intros Hq'.
      apply Hlf. now apply list_elem_of_lookup_2 in Hq'.
  - intros q Hq.
    replace q with (JS.len pre + JS.len (Delimiter.left delim)
                    + Z.of_nat (Z.to_nat (q - JS.len pre - JS.len (Delimiter.left delim))))
      by lia.
    rewrite Hdrop by (unfold JS.len in *; lia).
    apply Hno. unfold JS.len in *. lia.
  - unfold JS.len at 3. rewrite Hdrop by lia.
    unfold tail. unfold JS.str in *. rewrite drop_app_length. apply startsWith_app.
Qed.

Section InlineRoundTrip.

Context {Err : Type}.
Variable renderToString : JS.str -> Katex.options -> Err + JS.str.

Abbreviation inlineRule := (mathInlineRule renderToString).

(** X8: round trip.  When the text is [pre ++ left ++ content ++ right ++
    post] with the cursor after [pre], [content] has no newline, [right]
    does not begin with one, no occurrence of [right] starts inside
    [content], and the first unit of [right] lies before the bound, then
    the engine receives exactly [content] and the cursor ends just past
    [right]; on success the stream gains the pending text, if any, as a
    [text] token and then the [html_inline] token. *)
Theorem inline_roundtrip (delim : Delimiter.t) (ds : list Delimiter.t)
    (st : StateInline.t) (console : list (string * Err))
    (pre content post : JS.str) :
  StateInline.src st
  = pre ++ Delimiter.left delim ++ content ++ Delimiter.right delim ++ post ->
  StateInline.pos st = JS.len pre ->
  JS.len pre + JS.len (Delimiter.left delim) + JS.len content < StateInline.posMax st ->
  JS.LF ∉ content ->
  (exists c rest, Delimiter.right delim = c :: rest /\ c <> JS.LF) ->
  (forall j, (j < length content)%nat ->
     JS.startsWith (drop j (content ++ Delimiter.right delim ++ post))
       (Delimiter.right delim) = false) ->
  let after := JS.len pre + JS.len (Delimiter.left delim) + JS.len content
               + JS.len (Delimiter.right delim) in
  inlineRule (Options.mk (delim :: ds)) st console false
  = match renderToString content (Katex.mk false "mathml" (Delimiter.display delim)) with
    | inr markup =>
        Run.mk true
          (StateInline.mk (StateInline.src st) after (StateInline.posMax st) []
             (StateInline.tokens st
              ++ (if JS.truthy (StateInline.pending st)
                  then [Token.mk "text" "" 0 (StateInline.pending st) None false]
                  else [])
              ++ [Token.mk "html_inline" "" 0 markup None false]))
          console
    | inl e =>
        Run.mk true
          (StateInline.mk (StateInline.src st) after (StateInline.posMax st)
             (StateInline.pending st) (StateInline.tokens st))
          (console ++ [("KaTeX inline rendering error:"%string, e)])
    end.
Proof.
  intros Hsrc Hpos Hmax Hlf Hright Hno after.
  pose proof (closesAt_compose delim st pre content post Hsrc Hpos Hmax Hlf Hright Hno)
    as Hhit.
  rewrite (inlineRule_hit renderToString (Options.mk (delim :: ds)) [] ds delim _ _ _ _
             eq_refl (Forall_nil_2 _) Hhit).
  cbv zeta. cbn [negb].
  assert (Hcontent :
    JS.slice (StateInline.src st) (StateInline.pos st + JS.len (Delimiter.left delim))
      (Some (JS.len pre + JS.len (Delimiter.left delim) + JS.len content)) = content).
  { rewrite Hsrc, Hpos, app_assoc, <- len_app. apply slice_mid. }
  rewrite Hcontent. destruct (renderToString _ _); [reflexivity|].
  now rewrite push_flushes_pending.
Qed.

(** X9: the inline rule never hands the engine text that contains a
    newline: two engines that agree on newline-free input are
    indistinguishable to it. *)
Theorem inline_engine_sees_no_newline
    (renderToString' : JS.str -> Katex.options -> Err + JS.str)
    (options : Options.t) (st : StateInline.t) (console : list (string * Err))
    (silent : bool) :
  (forall source opts, JS.LF ∉ source ->
     renderToString source opts = renderToString' source opts) ->
  0 <= StateInline.pos st ->
  inlineRule options st console silent
  = mathInlineRule renderToString' options st console silent.
Proof.
  intros Hagree Hpos.
  destruct (delimiters_split st (Options.delimiters options))
    as [Hall|(ds1 & delim & ds2 & p & Hds & Hfail & Hhit)].
  - now rewrite !inlineRule_miss.
  - rewrite (inlineRule_hit renderToString _ _ _ _ _ _ _ _ Hds Hfail Hhit).
    rewrite (inlineRule_hit renderToString' _ _ _ _ _ _ _ _ Hds Hfail Hhit).
    cbv zeta. rewrite Hagree; [reflexivity|].
    destruct Hhit as (_ & Hrange & Hlf & _).
    pose proof (len_nonneg (Delimiter.left delim)).
    intros Hin. apply elem_of_slice in Hin as (q & Hq & Hat); [|lia..].
    apply (Hlf q); [lia | exact Hat].
Qed.

End InlineRoundTrip.

(** X3: the return value and the final cursor of an inline scan depend on
    the text, the cursor, the bound and the pairs only: not on the engine,
    on whether it throws, on the console or on silent mode.  The buffer and
    the bound are never changed. *)
Theorem inline_verdict_independent {Err1 Err2 : Type}
    (render1 : JS.str -> Katex.options -> Err1 + JS.str)
    (render2 : JS.str -> Katex.options -> Err2 + JS.str)
    (options : Options.t) (st : StateInline.t)
    (console1 : list (string * Err1)) (console2 : list (string * Err2))
    (silent1 silent2 : bool) :
  let run1 := mathInlineRule render1 options st console1 silent1 in
  let run2 := mathInlineRule render2 options st console2 silent2 in
  Run.returned run1 = Run.returned run2
  /\ StateInline.pos (Run.state run1) = StateInline.pos (Run.state run2)
  /\ StateInline.src (Run.state run1) = StateInline.src st
  /\ StateInline.posMax (Run.state run1) = StateInline.posMax st.
Proof.
  cbv zeta.
  destruct (delimiters_split st (Options.delimiters options))
    as [Hall|(ds1 & delim & ds2 & p & Hds & Hfail & Hhit)].
  - rewrite !inlineRule_miss by assumption. repeat split.
  - rewrite (inlineRule_hit render1 _ _ _ _ _ _ _ _ Hds Hfail Hhit).
    rewrite (inlineRule_hit render2 _ _ _ _ _ _ _ _ Hds Hfail Hhit).
    cbv zeta.
    destruct silent1, silent2; try destruct (render1 _ _); try destruct (render2 _ _);
      rewrite ?push_flushes_pending; repeat split.
Qed.

(** ** What [trim] returns *)

Lemma trimStart_idem (s : JS.str) : JS.trimStart (JS.trimStart s) = JS.trimStart s.
Proof.
  induction s as [|c s IH]; [reflexivity|].
  cbn. destruct (JS.isWhiteSpace c) eqn:E; [exact IH|]. cbn. now rewrite E.
Qed.

Lemma trimStart_suffix (s : JS.str) : exists pre, s = pre ++ JS.trimStart s.
Proof.
  induction s as [|c s [pre IH]]; [now exists []|].
  cbn. destruct (JS.isWhiteSpace c).
  - exists (c :: pre). cbn. now f_equal.
  - now exists [].
Qed.

Lemma trimStart_head (s : JS.str) (x : N) (rest : JS.str) :
  JS.trimStart s = x :: rest -> JS.isWhiteSpace x = false.
Proof.
  induction s as [|c s IH]; [discriminate|].
  cbn. destruct (JS.isWhiteSpace c) eqn:E; [exact IH|]. congruence.
Qed.

Lemma trim_trimEnd (s : JS.str) : JS.trimEnd (JS.trim s) = JS.trim s.
Proof.
  unfold JS.trim, JS.trimEnd. now rewrite rev_involutive, trimStart_idem.
Qed.

Lemma trim_trimStart (s : JS.str) : JS.trimStart (JS.trim s) = JS.trim s.
Proof.
  unfold JS.trim, JS.trimEnd.
  destruct (trimStart_suffix (rev (JS.trimStart s))) as [pre Hpre].
  set (u := JS.trimStart (rev (JS.trimStart s))) in *.
  destruct (rev u) as [|x rest] eqn:Hu; [reflexivity|].
  apply (f_equal (@rev N)) in Hpre. rewrite rev_involutive, rev_app_distr, Hu in Hpre.
  cbn in Hpre. cbn. now rewrite (trimStart_head _ _ _ Hpre).
Qed.

Section BlockCoverage.

Context {Err : Type}.
Variable renderToString : JS.str -> Katex.options -> Err + JS.str.

Abbreviation blockRule := (mathBlockRule renderToString).

(** Either the block closes cleanly for the chosen pair, or the scan
    returns false and changes nothing. *)
Lemma blockRule_split (options : Options.t) (st : StateBlock.t)
    (startLine endLine : nat) :
  (exists delim k rp,
     matchedDelimiter (List.filter Delimiter.display (Options.delimiters options))
       (lineText st startLine) = Some delim /\
     closesOn st delim startLine endLine k rp /\
     trailingText st delim startLine k rp = [])
  \/ (forall console silent,
        blockRule options st console startLine endLine silent = Run.mk false st console).
Proof.
  destruct (matchedDelimiter (List.filter Delimiter.display (Options.delimiters options))
              (lineText st startLine)) as [delim|] eqn:Hmatch.
  - destruct (closes_or_unclosed st delim startLine endLine) as [(k & rp & Hcloses)|Hno].
    + destruct (JS.truthy (trailingText st delim startLine k rp)) eqn:Htrail.
      * right. intros console silent.
        rewrite (blockRule_closes _ _ _ _ _ _ _ _ _ _ Hmatch Hcloses). now rewrite Htrail.
      * left. exists delim, k, rp. repeat split; try apply Hcloses.
        now apply truthy_false.
    + right. intros console silent.
      now apply (block_unclosed_rejected _ _ _ _ _ _ _ delim).
  - right. intros console silent. unfold mathBlockRule. cbv zeta. now rewrite Hmatch.
Qed.

(** X10: a silent block scan, whatever it returns, leaves state and
    console as they were. *)
Theorem block_silent_probe_pure (options : Options.t) (st : StateBlock.t)
    (console : list (string * Err)) (startLine endLine : nat) :
  Run.state (blockRule options st console startLine endLine true) = st
  /\ Run.console (blockRule options st console startLine endLine true) = console.
Proof.
  destruct (blockRule_split options st startLine endLine)
    as [(delim & k & rp & Hmatch & Hcloses & Htrail)|Hfalse].
  - rewrite (blockRule_closes _ _ _ _ _ _ _ _ _ _ Hmatch Hcloses), Htrail. now split.
  - rewrite Hfalse. now split.
Qed.

(** X11: the silent block scan returns true exactly when a display pair
    is chosen on the opening line, [right] is found on that line or on a
    later one before [endLine], and only white space follows it there. *)
Theorem block_silent_true_iff (options : Options.t) (st : StateBlock.t)
    (console : list (string * Err)) (startLine endLine : nat) :
  Run.returned (blockRule options st console startLine endLine true) = true
  <-> exists delim k rp,
        matchedDelimiter (List.filter Delimiter.display (Options.delimiters options))
          (lineText st startLine) = Some delim /\
        closesOn st delim startLine endLine k rp /\
        trailingText st delim startLine k rp = [].
Proof.
  split.
  - destruct (blockRule_split options st startLine endLine) as [Hvalid|Hfalse];
      [now intros _|].
    rewrite Hfalse. discriminate.
  - intros (delim & k & rp & Hmatch & Hcloses & Htrail).
    now rewrite (blockRule_closes _ _ _ _ _ _ _ _ _ _ Hmatch Hcloses), Htrail.
Qed.

(** X12: a block scan that returns false, silent or not, leaves the
    parser state as it was: no token, no change of line. *)
Theorem block_false_leaves_state (options : Options.t) (st : StateBlock.t)
    (console : list (string * Err)) (startLine endLine : nat) (silent : bool) :
  Run.returned (blockRule options st console startLine endLine silent) = false ->
  Run.state (blockRule options st console startLine endLine silent) = st.
Proof.
  destruct (blockRule_split options st startLine endLine)
    as [(delim & k & rp & Hmatch & Hcloses & Htrail)|Hfalse].
  - rewrite (blockRule_closes _ _ _ _ _ _ _ _ _ _ Hmatch Hcloses), Htrail. cbn [JS.truthy].
    destruct silent; [reflexivity|]. now destruct (renderToString _ _).
  - now rewrite Hfalse.
Qed.

(** X13: a non-silent block scan that returns true has chosen a display
    pair that closes cleanly on some line [k] and has appended exactly one
    [math_block] token: its content is the markup the engine returned for
    the trimmed content captured up to line [k], its map runs from
    [startLine] to the new current line [k + 1], which is past [startLine]
    and not past [endLine] (or [startLine + 1] for a one-line block);
    nothing else changed and nothing was logged.  Rendering that token
    with [mathBlockRenderer] gives back the engine's markup. *)
Theorem block_success_shape (options : Options.t) (st : StateBlock.t)
    (console : list (string * Err)) (startLine endLine : nat) :
  Run.returned (blockRule options st console startLine endLine false) = true ->
  exists (delim : Delimiter.t) (k : nat) (rp : Z) (markup : JS.str),
    matchedDelimiter (List.filter Delimiter.display (Options.delimiters options))
      (lineText st startLine) = Some delim
    /\ closesOn st delim startLine endLine k rp
    /\ trailingText st delim startLine k rp = []
    /\ renderToString (JS.trim (capturedContent st delim startLine k rp))
         (Katex.mk false "mathml" true) = inr markup
    /\ blockRule options st console startLine endLine false
       = Run.mk true
           (StateBlock.mk (StateBlock.src st) (StateBlock.bMarks st)
              (StateBlock.tShift st) (StateBlock.eMarks st) (S k)
              (StateBlock.tokens st
               ++ [Token.mk "math_block" "math" 0 markup (Some (startLine, S k)) true]))
           console
    /\ (startLine < S k <= Nat.max (S startLine) endLine)%nat
    /\ mathBlockRenderer
         (StateBlock.tokens
            (Run.state (blockRule options st console startLine endLine false)))
         (length (StateBlock.tokens st)) = Some markup.
Proof.
  destruct (blockRule_split options st startLine endLine)
    as [(delim & k & rp & Hmatch & Hcloses & Htrail)|Hfalse].
  - rewrite (blockRule_closes _ _ _ _ _ _ _ _ _ _ Hmatch Hcloses), Htrail. cbn [JS.truthy].
    destruct (renderToString _ _) as [e|markup] eqn:Hrender; [discriminate|]. intros _.
    exists delim, k, rp, markup.
    split; [exact Hmatch|]. split; [exact Hcloses|]. split; [exact Htrail|].
    split; [exact Hrender|]. split; [reflexivity|].
    destruct Hcloses as (Hle & Hend & _). split; [lia|].
    unfold mathBlockRenderer. cbn.
    now rewrite lookup_app_r, Nat.sub_diag by lia.
  - rewrite Hfalse. discriminate.
Qed.

(** X14: when the silent probe of a block returns false, the real scan
    returns false too, without calling the engine or changing anything. *)
Theorem block_probe_false_means_run_false (options : Options.t) (st : StateBlock.t)
    (console : list (string * Err)) (startLine endLine : nat) :
  Run.returned (blockRule options st console startLine endLine true) = false ->
  blockRule options st console startLine endLine false = Run.mk false st console.
Proof.
  destruct (blockRule_split options st startLine endLine)
    as [(delim & k & rp & Hmatch & Hcloses & Htrail)|Hfalse].
  - rewrite (blockRule_closes _ _ _ _ _ _ true _ _ _ Hmatch Hcloses), Htrail.
    discriminate.
  - intros _. apply Hfalse.
Qed.

(** X15: when the silent probe of a block returns true and the real scan
    returns false, the engine threw: the state is unchanged and the error
    is the one line added to the console. *)
Theorem block_run_fails_only_by_engine (options : Options.t) (st : StateBlock.t)
    (console : list (string * Err)) (startLine endLine : nat) :
  Run.returned (blockRule options st console startLine endLine true) = true ->
  Run.returned (blockRule options st console startLine endLine false) = false ->
  exists e,
    blockRule options st console startLine endLine false
    = Run.mk false st (console ++ [("KaTeX block rendering error:"%string, e)]).
Proof.
  destruct (blockRule_split options st startLine endLine)
    as [(delim & k & rp & Hmatch & Hcloses & Htrail)|Hfalse].
  - intros _. rewrite (blockRule_closes _ _ _ _ _ _ false _ _ _ Hmatch Hcloses), Htrail.
    cbn [JS.truthy]. destruct (renderToString _ _) as [e|markup]; [|discriminate].
    intros _. now exists e.
  - rewrite Hfalse. discriminate.
Qed.

(** X16: round trip on one line.  When the opening line is [left ++
    content ++ right ++ trailing] for the first display pair that opens
    it, no occurrence of [right] starts inside [content] and [trailing] is
    white space only, the engine receives [content] trimmed and the token
    spans exactly that line. *)
Theorem block_single_line_roundtrip (options : Options.t) (ds1 ds2 : list Delimiter.t)
    (delim : Delimiter.t) (st : StateBlock.t) (console : list (string * Err))
    (startLine endLine : nat) (content trailing : JS.str) :
  Options.delimiters options = ds1 ++ delim :: ds2 ->
  (forall d, d ∈ ds1 -> Delimiter.display d = true ->
     JS.startsWith (lineText st startLine) (Delimiter.left d) = false) ->
  Delimiter.display delim = true ->
  lineText st startLine
  = Delimiter.left delim ++ content ++ Delimiter.right delim ++ trailing ->
  (forall j, (j < length content)%nat ->
     JS.startsWith (drop j (content ++ Delimiter.right delim ++ trailing))
       (Delimiter.right delim) = false) ->
  JS.trim trailing = [] ->
  blockRule options st console startLine endLine false
  = match renderToString (JS.trim content) (Katex.mk false "mathml" true) with
    | inr markup =>
        Run.mk true
          (StateBlock.mk (StateBlock.src st) (StateBlock.bMarks st) (StateBlock.tShift st)
             (StateBlock.eMarks st) (S startLine)
             (StateBlock.tokens st
              ++ [Token.mk "math_block" "math" 0 markup
                    (Some (startLine, S startLine)) true]))
          console
    | inl e =>
        Run.mk false st (console ++ [("KaTeX block rendering error:"%string, e)])
    end.
Proof.
  intros Hds Hnone Hdisplay Htext Hno Htrim.
  set (body := content ++ Delimiter.right delim ++ trailing) in *.
  assert (Hbody : searchedText st delim startLine startLine = body).
  { unfold searchedText. rewrite decide_True by reflexivity.
    rewrite Htext. apply slice_from_app. }
  assert (Hindex : JS.indexOf body (Delimiter.right delim) = JS.len content).
  { apply indexOf_intro; [|exact Hno].
    unfold body. unfold JS.str in *. rewrite drop_app_length. apply startsWith_app. }
  assert (Hmatch : matchedDelimiter
                     (List.filter Delimiter.display (Options.delimiters options))
                     (lineText st startLine) = Some delim).
  { rewrite Hds. apply matchedDelimiter_first; try assumption.
    rewrite Htext. apply startsWith_app. }
  assert (Hcloses : closesOn st delim startLine endLine startLine (JS.len content)).
  { unfold closesOn. rewrite Hbody. split; [lia|]. split; [now left|].
    split; [intros j Hj; lia|]. split; [exact Hindex|].
    pose proof (len_nonneg content). lia. }
  assert (Htrail : trailingText st delim startLine startLine (JS.len content) = []).
  { unfold trailingText. rewrite Hbody. unfold body.
    now rewrite <- len_app, app_assoc, slice_from_app. }
  assert (Hcaptured : capturedContent st delim startLine startLine (JS.len content)
                      = content).
  { unfold capturedContent. rewrite decide_True by reflexivity.
    rewrite Hbody. apply slice_to_app. }
  rewrite (blockRule_closes _ _ _ _ _ _ _ _ _ _ Hmatch Hcloses), Htrail, Hcaptured.
  reflexivity.
Qed.

(** X17: the block rule only ever calls the engine in display mode and
    on text without white space at either end: two engines that agree on
    such calls are indistinguishable to it. *)
Theorem block_engine_sees_trimmed
    (renderToString' : JS.str -> Katex.options -> Err + JS.str)
    (options : Options.t) (st : StateBlock.t) (console : list (string * Err))
    (startLine endLine : nat) (silent : bool) :
  (forall source, JS.trimStart source = source -> JS.trimEnd source = source ->
     renderToString source (Katex.mk false "mathml" true)
     = renderToString' source (Katex.mk false "mathml" true)) ->
  blockRule options st console startLine endLine silent
  = mathBlockRule renderToString' options st console startLine endLine silent.
Proof.
  intros Hagree. unfold mathBlockRule. cbv zeta.
  destruct (matchedDelimiter _ _) as [delim|]; [|reflexivity].
  destruct (searchRight _ _ _ _ _) as [[[content nextLine] found]|]; [|reflexivity].
  destruct found, silent; cbn [negb]; try reflexivity.
  now rewrite Hagree by (apply trim_trimStart || apply trim_trimEnd).
Qed.

(** X18: a block scan that returns true does not depend on the lines
    after the closing one: with a larger [endLine] the result is the
    same. *)
Theorem block_success_stable_under_more_lines (options : Options.t) (st : StateBlock.t)
    (console : list (string * Err)) (startLine endLine endLine' : nat) (silent : bool) :
  Run.returned (blockRule options st console startLine endLine silent) = true ->
  (endLine <= endLine')%nat ->
  blockRule options st console startLine endLine' silent
  = blockRule options st console startLine endLine silent.
Proof.
  destruct (blockRule_split options st startLine endLine)
    as [(delim & k & rp & Hmatch & Hcloses & Htrail)|Hfalse].
  - intros _ Hmore.
    assert (Hcloses' : closesOn st delim startLine endLine' k rp).
    { destruct Hcloses as (Hle & Hend & Hrest). split; [exact Hle|].
      split; [lia | exact Hrest]. }
    now rewrite (blockRule_closes _ _ _ _ _ _ _ _ _ _ Hmatch Hcloses),
      (blockRule_closes _ _ _ _ _ _ _ _ _ _ Hmatch Hcloses').
  - rewrite Hfalse. discriminate.
Qed.

(** X19: registration replaces the renderer of the [math_block] kind
    only; the renderer of every other kind is the one the host had. *)
Theorem registration_keeps_other_renderers (md md' : MarkdownIt.t Err)
    (options : option Options.t) (kind : string) :
  plugin renderToString md options = Some md' ->
  kind <> "math_block"%string ->
  MarkdownIt.renderer_rules md' !! kind = MarkdownIt.renderer_rules md !! kind.
Proof.
  intros Hplugin Hkind. unfold plugin in Hplugin.
  destruct (Ruler.before _ _ _ _) as [block|]; [|discriminate].
  destruct (Ruler.after _ _ _ _) as [inline|]; [|discriminate].
  cbn in Hplugin. injection Hplugin as <-. cbn [MarkdownIt.renderer_rules].
  apply lookup_insert_ne. congruence.
Qed.

End BlockCoverage.

(** ** The further properties on the sample documents *)

(** On [\(x\)] with [displayPair] alone nothing opens. *)
Lemma inline_false_leaves_state_witness :
  mathInlineRule echoEngine (Options.mk [displayPair]) (inlineDoc 5) [] false
  = Run.mk false (inlineDoc 5) [].
Proof.
  apply (inline_false_leaves_state echoEngine (Options.mk [displayPair]) (inlineDoc 5) []
           false).
  reflexivity.
Defined.

(** On [\(x\)] the cursor moves by the four units of [\(] and [\)] at least. *)
Lemma inline_cursor_progress_witness :
  exists delim, delim ∈ Options.delimiters defaultOptions /\
    StateInline.pos (inlineDoc 5) + JS.len (Delimiter.left delim)
    + JS.len (Delimiter.right delim)
    <= StateInline.pos (Run.state (mathInlineRule echoEngine defaultOptions (inlineDoc 5) [] false)).
Proof.
  apply (inline_cursor_progress echoEngine defaultOptions (inlineDoc 5) [] false).
  reflexivity.
Defined.

(** [\(x\)] becomes one [html_inline] token. *)
Lemma inline_success_emits_token_witness :
  mathInlineRule echoEngine defaultOptions (inlineDoc 5) [] false
  = Run.mk true
      (StateInline.mk (JS.of_string "\(x\)") 5 5 []
         [Token.mk "html_inline" "" 0 (JS.of_string "<math>x</math>") None false])
      [].
Proof.
  apply (inline_success_emits_token echoEngine defaultOptions [displayPair] []
           inlinePair (inlineDoc 5) [] 3 (JS.of_string "<math>x</math>")).
  - reflexivity.
  - apply inlineDoc_displayPair_fails.
  - exact inlineDoc_closesAt.
  - reflexivity.
Defined.

(** [parenDollarPair] after [inlinePair] is never consulted. *)
Lemma inline_first_closing_pair_wins_witness :
  mathInlineRule echoEngine (Options.mk ([displayPair] ++ inlinePair :: [parenDollarPair]))
    (inlineDoc 5) [] false
  = mathInlineRule echoEngine (Options.mk [inlinePair]) (inlineDoc 5) [] false.
Proof.
  apply (inline_first_closing_pair_wins echoEngine [displayPair] [parenDollarPair]
           inlinePair (inlineDoc 5) [] false 3).
  - apply inlineDoc_displayPair_fails.
  - exact inlineDoc_closesAt.
Defined.

(** With the bound at offset 2 of [\(x\)] there is no room after [\(]. *)
Lemma inline_no_match_at_bound_witness :
  mathInlineRule echoEngine defaultOptions (inlineDoc 2) [] false
  = Run.mk false (inlineDoc 2) [].
Proof.
  apply (inline_no_match_at_bound echoEngine defaultOptions (inlineDoc 2) [] false).
  intros delim Hin.
  apply elem_of_cons in Hin as [-> | Hin]; [vm_compute; discriminate|].
  apply elem_of_cons in Hin as [-> | Hin]; [vm_compute; discriminate|].
  inversion Hin.
Defined.

(** [a \(x^2\) b] scanned from the backslash with [a ] pending: the
    engine gets [x^2] and the stream gets the text and the markup. *)
Lemma inline_roundtrip_witness :
  mathInlineRule echoEngine (Options.mk [inlinePair; displayPair]) proseDoc [] false
  = Run.mk true
      (StateInline.mk (StateInline.src proseDoc) 9 11 []
         [Token.mk "text" "" 0 (JS.of_string "a ") None false;
          Token.mk "html_inline" "" 0 (JS.of_string "<math>x^2</math>") None false])
      [].
Proof.
  apply (inline_roundtrip echoEngine inlinePair [displayPair] proseDoc []
           (JS.of_string "a ") (JS.of_string "x^2") (JS.of_string " b")).
  - reflexivity.
  - reflexivity.
  - reflexivity.
  - intros Hin. repeat (apply elem_of_cons in Hin as [Hin | Hin]; [discriminate Hin|]).
    inversion Hin.
  - exists 92%N, [41%N]. split; [reflexivity | discriminate].
  - intros j Hj. change (j < 3)%nat in Hj.
    assert (j = 0 \/ j = 1 \/ j = 2)%nat as [-> | [-> | ->]] by lia; reflexivity.
Defined.

(** [echoEngine] and [lineShyEngine] give the same scan of [\(x\)]. *)
Lemma inline_engine_sees_no_newline_witness :
  mathInlineRule echoEngine defaultOptions (inlineDoc 5) [] false
  = mathInlineRule lineShyEngine defaultOptions (inlineDoc 5) [] false.
Proof.
  apply (inline_engine_sees_no_newline echoEngine lineShyEngine defaultOptions
           (inlineDoc 5) [] false).
  - intros source opts Hlf. unfold lineShyEngine. now rewrite bool_decide_false.
  - reflexivity.
Defined.

(** The unclosed block leaves its state. *)
Lemma block_false_leaves_state_witness :
  Run.state (mathBlockRule echoEngine defaultOptions unclosedDoc [] 0 1 false)
  = unclosedDoc.
Proof.
  apply (block_false_leaves_state echoEngine defaultOptions unclosedDoc [] 0 1 false).
  reflexivity.
Defined.

(** The three-line block: [displayPair] closes on line 2, and the one
    token holds the engine's markup for [x+y], lines 0 to 3. *)
Lemma block_success_shape_witness :
  exists (delim : Delimiter.t) (k : nat) (rp : Z) (markup : JS.str),
    matchedDelimiter (List.filter Delimiter.display (Options.delimiters defaultOptions))
      (lineText threeLineDoc 0) = Some delim
    /\ closesOn threeLineDoc delim 0 3 k rp
    /\ trailingText threeLineDoc delim 0 k rp = []
    /\ echoEngine (JS.trim (capturedContent threeLineDoc delim 0 k rp))
         (Katex.mk false "mathml" true) = inr markup
    /\ mathBlockRule echoEngine defaultOptions threeLineDoc [] 0 3 false
       = Run.mk true
           (StateBlock.mk (StateBlock.src threeLineDoc) (StateBlock.bMarks threeLineDoc)
              (StateBlock.tShift threeLineDoc) (StateBlock.eMarks threeLineDoc) (S k)
              (StateBlock.tokens threeLineDoc
               ++ [Token.mk "math_block" "math" 0 markup (Some (0%nat, S k)) true]))
           []
    /\ (0 < S k <= Nat.max 1 3)%nat
    /\ mathBlockRenderer
         (StateBlock.tokens
            (Run.state (mathBlockRule echoEngine defaultOptions threeLineDoc [] 0 3 false)))
         (length (StateBlock.tokens threeLineDoc)) = Some markup.
Proof.
  apply (block_success_shape echoEngine defaultOptions threeLineDoc [] 0 3).
  reflexivity.
Defined.

(** [\[x\] trailing text]: the probe fails, so does the scan. *)
Lemma block_probe_false_means_run_false_witness :
  mathBlockRule echoEngine defaultOptions trailingDoc [] 0 1 false
  = Run.mk false trailingDoc [].
Proof.
  apply (block_probe_false_means_run_false echoEngine defaultOptions trailingDoc [] 0 1).
  reflexivity.
Defined.

(** The three-line block with an engine that throws. *)
Lemma block_run_fails_only_by_engine_witness :
  exists e,
    mathBlockRule faultyEngine defaultOptions threeLineDoc [] 0 3 false
    = Run.mk false threeLineDoc [("KaTeX block rendering error:"%string, e)].
Proof.
  apply (block_run_fails_only_by_engine faultyEngine defaultOptions threeLineDoc [] 0 3);
    reflexivity.
Defined.

(** [\[ a+b \]] and two spaces: the engine gets [a+b]. *)
Lemma block_single_line_roundtrip_witness :
  mathBlockRule echoEngine defaultOptions singleLineDoc [] 0 1 false
  = Run.mk true
      (StateBlock.mk (StateBlock.src singleLineDoc) [0; 11] [0; 0] [11; 11] 1
         [Token.mk "math_block" "math" 0 (JS.of_string "<math>a+b</math>")
            (Some (0%nat, 1%nat)) true])
      [].
Proof.
  apply (block_single_line_roundtrip echoEngine defaultOptions [] [inlinePair] displayPair
           singleLineDoc [] 0 1 (JS.of_string " a+b ") (JS.of_string "  ")).
  - reflexivity.
  - intros d Hd. inversion Hd.
  - reflexivity.
  - reflexivity.
  - intros j Hj. change (j < 5)%nat in Hj.
    assert (j = 0 \/ j = 1 \/ j = 2 \/ j = 3 \/ j = 4)%nat
      as [-> | [-> | [-> | [-> | ->]]]] by lia; reflexivity.
  - reflexivity.
Defined.

(** [echoEngine] and [strictEngine] give the same scan of the three-line block. *)
Lemma block_engine_sees_trimmed_witness :
  mathBlockRule echoEngine defaultOptions threeLineDoc [] 0 3 false
  = mathBlockRule strictEngine defaultOptions threeLineDoc [] 0 3 false.
Proof.
  apply (block_engine_sees_trimmed echoEngine strictEngine defaultOptions threeLineDoc
           [] 0 3 false).
  intros source Hstart Hend. unfold strictEngine.
  rewrite bool_decide_true; [reflexivity|].
  unfold JS.trim. now rewrite Hstart.
Defined.

(** The three-line block scanned with [endLine] 4 instead of 3. *)
Lemma block_success_stable_under_more_lines_witness :
  mathBlockRule echoEngine defaultOptions threeLineDoc [] 0 4 false
  = mathBlockRule echoEngine defaultOptions threeLineDoc [] 0 3 false.
Proof.
  apply (block_success_stable_under_more_lines echoEngine defaultOptions threeLineDoc
           [] 0 3 4 false).
  - reflexivity.
  - lia.
Defined.

(** The [html_inline] renderer of the host is untouched. *)
Lemma registration_keeps_other_renderers_witness :
  MarkdownIt.renderer_rules registeredMd !! "html_inline"%string
  = MarkdownIt.renderer_rules hostMd !! "html_inline"%string.
Proof.
  apply (registration_keeps_other_renderers echoEngine hostMd registeredMd None
           "html_inline"%string).
  - reflexivity.
  - discriminate.
Defined.
